(** * HelloTriangle: a shallow embedding of [HelloTriangle.cpp]

    The program opens a GLFW window, uploads a textured quad and draws it
    every frame under a translate-then-rotate transform.  The embedding has
    three layers:

    - [Glm]: the 4x4 matrix code the render loop calls, after glm's
      [matrix_transform.inl].  Its scalars stand for single-precision
      numbers but are real numbers here, with neither rounding nor the
      conversion [(float)] of the clock: the layer says which operations
      build the matrix of a frame and from which inputs, and nothing below
      rests on the numbers those operations yield;
    - the ambient state of GLFW, OpenGL, stb_image and the two output
      streams as one record [World], each API entry point being a state
      transformer that also appends itself to a call trace.  Every entry
      point returns; OpenGL errors that depend on implementation limits
      (texture size, number of texture units), a call made before the
      loader has filled in the entry points, and a draw that reads outside
      a buffer are not modelled, so statements about them carry the
      matching precondition or are not made;
    - the program's own functions ([processInput],
      [framebuffer_size_callback], [initlializeGLFW], [renderLoop],
      [generateTexture], [main]) written over those entry points in the
      order of the source.

    What the outside world decides (whether the window can be created,
    whether the loader succeeds, what the image file decodes to, which
    events arrive and what the clock shows in each frame) is an [Env]. *)

From Stdlib Require Import Reals.
From stdpp Require Import gmap strings list fin_maps.

(* ===================================================================== *)
(** ** glm: vectors and column-major matrices                             *)
(* ===================================================================== *)

Module Glm.

Local Open Scope R_scope.

(** [float] stands for IEEE 754 binary32.  It is a real number here, an
    idealisation: no rounding, no NaN or infinity, and [cos] and [sin] are
    the mathematical functions, not those of the C library.  The matrices
    below therefore record how the code combines its inputs; their entries
    are not the bit patterns the program computes. *)
Definition float : Type := R.

Record vec3 : Type := Vec3 { v3x : float; v3y : float; v3z : float }.
Record vec4 : Type := Vec4 { v4x : float; v4y : float; v4z : float; v4w : float }.

(** [glm::mat4] stores four columns; [m[i]] is column [i]. *)
Record mat4 : Type := Mat4 { col0 : vec4; col1 : vec4; col2 : vec4; col3 : vec4 }.

Definition vec4_scale (v : vec4) (k : float) : vec4 :=
  Vec4 (v4x v * k) (v4y v * k) (v4z v * k) (v4w v * k).

Definition vec4_add (a b : vec4) : vec4 :=
  Vec4 (v4x a + v4x b) (v4y a + v4y b) (v4z a + v4z b) (v4w a + v4w b).

Definition vec3_scale (k : float) (v : vec3) : vec3 :=
  Vec3 (k * v3x v) (k * v3y v) (k * v3z v).

Definition dot3 (a b : vec3) : float :=
  v3x a * v3x b + v3y a * v3y b + v3z a * v3z b.

(** [glm::inversesqrt] and [glm::normalize]. *)
Definition inversesqrt (x : float) : float := 1 / sqrt x.

Definition normalize (v : vec3) : vec3 :=
  vec3_scale (inversesqrt (dot3 v v)) v.

(** [glm::mat4(1.0f)]. *)
Definition mat4_diag (d : float) : mat4 :=
  Mat4 (Vec4 d 0 0 0) (Vec4 0 d 0 0) (Vec4 0 0 d 0) (Vec4 0 0 0 d).

(** [glm::translate(m, v)]: only the last column changes,
    [m[0]*v[0] + m[1]*v[1] + m[2]*v[2] + m[3]]. *)
Definition translate (m : mat4) (v : vec3) : mat4 :=
  Mat4 (col0 m) (col1 m) (col2 m)
       (vec4_add
          (vec4_add
             (vec4_add (vec4_scale (col0 m) (v3x v)) (vec4_scale (col1 m) (v3y v)))
             (vec4_scale (col2 m) (v3z v)))
          (col3 m)).

(** [glm::rotate(m, angle, v)]: builds the 3x3 rotation about the
    normalised axis and multiplies the first three columns of [m] by it. *)
Definition rotate (m : mat4) (angle : float) (v : vec3) : mat4 :=
  let a := angle in
  let c := cos a in
  let s := sin a in
  let axis := normalize v in
  let temp := vec3_scale (1 - c) axis in
  let r00 := c + v3x temp * v3x axis in
  let r01 := v3x temp * v3y axis + s * v3z axis in
  let r02 := v3x temp * v3z axis - s * v3y axis in
  let r10 := v3y temp * v3x axis - s * v3z axis in
  let r11 := c + v3y temp * v3y axis in
  let r12 := v3y temp * v3z axis + s * v3x axis in
  let r20 := v3z temp * v3x axis + s * v3y axis in
  let r21 := v3z temp * v3y axis - s * v3x axis in
  let r22 := c + v3z temp * v3z axis in
  Mat4
    (vec4_add (vec4_add (vec4_scale (col0 m) r00) (vec4_scale (col1 m) r01))
              (vec4_scale (col2 m) r02))
    (vec4_add (vec4_add (vec4_scale (col0 m) r10) (vec4_scale (col1 m) r11))
              (vec4_scale (col2 m) r12))
    (vec4_add (vec4_add (vec4_scale (col0 m) r20) (vec4_scale (col1 m) r21))
              (vec4_scale (col2 m) r22))
    (col3 m).

End Glm.

(* ===================================================================== *)
(** ** The per-frame transform (renderLoop, lines 105-107)                *)
(* ===================================================================== *)

Definition translateBy : Glm.vec3 := Glm.Vec3 0.5%R (-0.5)%R 0%R.
Definition rotationAxis : Glm.vec3 := Glm.Vec3 0%R 0%R 1%R.

(** [transform = mat4(1.0f); transform = translate(transform, ...);
    transform = rotate(transform, (float)glfwGetTime(), ...)].  The
    argument [t] is the angle as [glm::rotate] receives it, that is, after
    the conversion to [float]. *)
Definition frameTransform (t : Glm.float) : Glm.mat4 :=
  let transform := Glm.mat4_diag 1%R in
  let transform := Glm.translate transform translateBy in
  let transform := Glm.rotate transform t rotationAxis in
  transform.

(* ===================================================================== *)
(** ** Constants of the third-party headers                               *)
(* ===================================================================== *)

(** The OpenGL enumerants the program mentions, kept symbolic. *)
Inductive GLenum : Type :=
| GL_TEXTURE_2D
| GL_TEXTURE_WRAP_S | GL_TEXTURE_WRAP_T
| GL_TEXTURE_MIN_FILTER | GL_TEXTURE_MAG_FILTER
| GL_REPEAT | GL_LINEAR | GL_LINEAR_MIPMAP_LINEAR | GL_NEAREST_MIPMAP_LINEAR
| GL_RGB | GL_RGBA
| GL_UNSIGNED_BYTE | GL_UNSIGNED_INT | GL_FLOAT
| GL_ARRAY_BUFFER | GL_ELEMENT_ARRAY_BUFFER | GL_STATIC_DRAW
| GL_TRIANGLES | GL_COLOR_BUFFER_BIT.

#[global] Instance GLenum_eq_dec : EqDecision GLenum.
Proof. solve_decision. Defined.

Inductive GLFWhint : Type :=
| GLFW_CONTEXT_VERSION_MAJOR | GLFW_CONTEXT_VERSION_MINOR | GLFW_OPENGL_PROFILE.

Definition GLFW_OPENGL_CORE_PROFILE : Z := 0x00032001.

(** What [glfwGetKey] can return. *)
Inductive KeyState : Type := GLFW_RELEASE | GLFW_PRESS.

#[global] Instance KeyState_eq_dec : EqDecision KeyState.
Proof. solve_decision. Defined.

Definition GLFW_KEY_ESCAPE : Z := 256.

Definition SCR_WIDTH : Z := 800.
Definition SCR_HEIGHT : Z := 600.

Definition vertexShaderPath : string := "./vertexShader.glsl".
Definition fragmentShaderPath : string := "./fragmentShader.glsl".

Definition sizeof_float : Z := 4.
Definition sizeof_int : Z := 4.

(** Object names and pointers are numbers; [0] is the null pointer and
    the reserved object name. *)
Definition nullptr : N := 0%N.

(* ===================================================================== *)
(** ** The ambient state                                                  *)
(* ===================================================================== *)

(** The only callback the program installs. *)
Inductive Callback : Type := framebuffer_size_callback_ptr.

Record Window : Type := {
  win_width : Z;
  win_height : Z;
  win_title : string;
  win_should_close : bool;
  win_keys : gmap Z KeyState;   (* last reported state; absent = released *)
  win_fbsize_callback : option Callback
}.

Record GlfwState : Type := {
  glfw_initialized : bool;
  glfw_hints : list (GLFWhint * Z);
  windows : gmap N Window;
  context_current : N
}.

(** A decoded image: rows of bytes, top row first unless flipped. *)
Record Image : Type := {
  img_width : Z;
  img_height : Z;
  img_channels : Z;
  img_rows : list (list Z)
}.

Record TexImage : Type := {
  ti_internalformat : GLenum;
  ti_width : Z;
  ti_height : Z;
  ti_format : GLenum;
  ti_type : GLenum;
  ti_rows : list (list Z)
}.

Record TexObj : Type := {
  tex_wrap_s : GLenum;
  tex_wrap_t : GLenum;
  tex_min_filter : GLenum;
  tex_mag_filter : GLenum;
  tex_image : option TexImage;   (* level 0, [None] until glTexImage2D *)
  tex_mipmaps : bool
}.

(** The state a texture object has when OpenGL creates it. *)
Definition new_texture : TexObj :=
  {| tex_wrap_s := GL_REPEAT; tex_wrap_t := GL_REPEAT;
     tex_min_filter := GL_NEAREST_MIPMAP_LINEAR; tex_mag_filter := GL_LINEAR;
     tex_image := None; tex_mipmaps := false |}.

Record TextureState : Type := {
  active_texture : Z;                (* i for GL_TEXTURE0 + i *)
  texture_binding_2d : gmap Z N;     (* per unit; absent = 0 *)
  textures : gmap N TexObj
}.

Inductive BufData : Type :=
| NoData
| FloatData (l : list Glm.float)
| IntData (l : list Z).

Record BufObj : Type := { buf_size : Z; buf_data : BufData }.

Definition new_buffer : BufObj := {| buf_size := 0; buf_data := NoData |}.

Record VertexAttrib : Type := {
  attr_size : Z;
  attr_type : GLenum;
  attr_normalized : bool;
  attr_stride : Z;
  attr_offset : Z;      (* the pointer argument, a byte offset *)
  attr_buffer : N;      (* GL_ARRAY_BUFFER binding at declaration time *)
  attr_enabled : bool
}.

Record VaoObj : Type := {
  vao_attribs : gmap Z VertexAttrib;
  vao_element_buffer : N
}.

Definition new_vao : VaoObj := {| vao_attribs := ∅; vao_element_buffer := 0%N |}.

Record GeometryState : Type := {
  vertex_array_binding : N;
  array_buffer_binding : N;
  vaos : gmap N VaoObj;
  buffers : gmap N BufObj
}.

Record Program : Type := {
  prog_vertex_path : string;
  prog_fragment_path : string;
  prog_ints : gmap string Z;
  prog_mat4s : gmap string Glm.mat4
}.

Record ShaderState : Type := {
  current_program : N;
  programs : gmap N Program
}.

(** The entry points as they are recorded in the trace: every one the
    program calls, and the release calls for textures and shader programs,
    which it never makes. *)
Module Call.
Inductive t : Type :=
| glfwInit | glfwWindowHint (h : GLFWhint) (v : Z)
| glfwCreateWindow (w h : Z) (title : string)
| glfwTerminate | glfwMakeContextCurrent (p : N)
| glfwSetFramebufferSizeCallback (p : N)
| gladLoadGLLoader
| glfwGetKey (p : N) (key : Z) | glfwSetWindowShouldClose (p : N) (v : bool)
| glfwWindowShouldClose (p : N) | glfwGetTime
| glfwSwapBuffers (p : N) | glfwPollEvents
| glViewport (x y w h : Z)
| glGenTextures (name : N) | glActiveTexture (texunit : Z)
| glBindTexture (target : GLenum) (name : N)
| glTexParameteri (target pname param : GLenum)
| glTexImage2D (target internalformat : GLenum) (w h : Z) (format type : GLenum)
| glGenerateMipmap (target : GLenum)
| glDeleteTextures (name : N)
| glGenVertexArrays (name : N) | glGenBuffers (name : N)
| glBindVertexArray (name : N) | glBindBuffer (target : GLenum) (name : N)
| glBufferData (target : GLenum) (size : Z) (usage : GLenum)
| glVertexAttribPointer (index size : Z) (type : GLenum) (stride offset : Z)
| glEnableVertexAttribArray (index : Z)
| glDeleteVertexArrays (name : N) | glDeleteBuffers (name : N)
| glGetUniformLocation (program : N) (name : string)
| glClearColor | glClear (mask : GLenum)
| glUniformMatrix4fv (location : string) (m : Glm.mat4)
| glDrawElements (mode : GLenum) (count : Z) (type : GLenum)
| stbi_set_flip_vertically_on_load (flag : bool)
| stbi_load (path : string) | stbi_image_free
| Shader_new (program : N) | Shader_use (program : N)
| Shader_setInt (program : N) (name : string) (v : Z)
| Shader_delete (program : N).
End Call.

Record World : Type := {
  glfw : GlfwState;
  gl_loaded : bool;
  viewport : Z * Z * Z * Z;
  tex : TextureState;
  geom : GeometryState;
  shd : ShaderState;
  flip_vertically_on_load : bool;    (* stb_image's global flag *)
  std_cout : list string;
  std_cerr : list string;
  trace : list Call.t
}.

(** Field updates. *)
Definition with_glfw (f : GlfwState -> GlfwState) (w : World) : World :=
  {| glfw := f (glfw w); gl_loaded := gl_loaded w; viewport := viewport w;
     tex := tex w; geom := geom w; shd := shd w;
     flip_vertically_on_load := flip_vertically_on_load w;
     std_cout := std_cout w; std_cerr := std_cerr w; trace := trace w |}.

Definition with_gl_loaded (b : bool) (w : World) : World :=
  {| glfw := glfw w; gl_loaded := b; viewport := viewport w;
     tex := tex w; geom := geom w; shd := shd w;
     flip_vertically_on_load := flip_vertically_on_load w;
     std_cout := std_cout w; std_cerr := std_cerr w; trace := trace w |}.

Definition with_viewport (v : Z * Z * Z * Z) (w : World) : World :=
  {| glfw := glfw w; gl_loaded := gl_loaded w; viewport := v;
     tex := tex w; geom := geom w; shd := shd w;
     flip_vertically_on_load := flip_vertically_on_load w;
     std_cout := std_cout w; std_cerr := std_cerr w; trace := trace w |}.

Definition with_tex (f : TextureState -> TextureState) (w : World) : World :=
  {| glfw := glfw w; gl_loaded := gl_loaded w; viewport := viewport w;
     tex := f (tex w); geom := geom w; shd := shd w;
     flip_vertically_on_load := flip_vertically_on_load w;
     std_cout := std_cout w; std_cerr := std_cerr w; trace := trace w |}.

Definition with_geom (f : GeometryState -> GeometryState) (w : World) : World :=
  {| glfw := glfw w; gl_loaded := gl_loaded w; viewport := viewport w;
     tex := tex w; geom := f (geom w); shd := shd w;
     flip_vertically_on_load := flip_vertically_on_load w;
     std_cout := std_cout w; std_cerr := std_cerr w; trace := trace w |}.

Definition with_shd (f : ShaderState -> ShaderState) (w : World) : World :=
  {| glfw := glfw w; gl_loaded := gl_loaded w; viewport := viewport w;
     tex := tex w; geom := geom w; shd := f (shd w);
     flip_vertically_on_load := flip_vertically_on_load w;
     std_cout := std_cout w; std_cerr := std_cerr w; trace := trace w |}.

Definition with_flip (b : bool) (w : World) : World :=
  {| glfw := glfw w; gl_loaded := gl_loaded w; viewport := viewport w;
     tex := tex w; geom := geom w; shd := shd w;
     flip_vertically_on_load := b;
     std_cout := std_cout w; std_cerr := std_cerr w; trace := trace w |}.

Definition with_cout (f : list string -> list string) (w : World) : World :=
  {| glfw := glfw w; gl_loaded := gl_loaded w; viewport := viewport w;
     tex := tex w; geom := geom w; shd := shd w;
     flip_vertically_on_load := flip_vertically_on_load w;
     std_cout := f (std_cout w); std_cerr := std_cerr w; trace := trace w |}.

Definition with_cerr (f : list string -> list string) (w : World) : World :=
  {| glfw := glfw w; gl_loaded := gl_loaded w; viewport := viewport w;
     tex := tex w; geom := geom w; shd := shd w;
     flip_vertically_on_load := flip_vertically_on_load w;
     std_cout := std_cout w; std_cerr := f (std_cerr w); trace := trace w |}.

Definition log_call (c : Call.t) (w : World) : World :=
  {| glfw := glfw w; gl_loaded := gl_loaded w; viewport := viewport w;
     tex := tex w; geom := geom w; shd := shd w;
     flip_vertically_on_load := flip_vertically_on_load w;
     std_cout := std_cout w; std_cerr := std_cerr w; trace := trace w ++ [c] |}.

(** A world in which nothing has happened yet. *)
Definition initial_world : World :=
  {| glfw := {| glfw_initialized := false; glfw_hints := []; windows := ∅;
                context_current := 0%N |};
     gl_loaded := false;
     viewport := (0, 0, 0, 0)%Z;
     tex := {| active_texture := 0; texture_binding_2d := ∅; textures := ∅ |};
     geom := {| vertex_array_binding := 0%N; array_buffer_binding := 0%N;
                vaos := ∅; buffers := ∅ |};
     shd := {| current_program := 0%N; programs := ∅ |};
     flip_vertically_on_load := false;
     std_cout := []; std_cerr := []; trace := [] |}.

(** A name that is neither [0] nor in use. *)
Definition fresh_name {X : Type} (m : gmap N X) : N := fresh ({[0%N]} ∪ dom m).

(* ===================================================================== *)
(** ** The state monad of the program                                     *)
(* ===================================================================== *)

Definition GL (A : Type) : Type := World -> A * World.

Definition ret {A : Type} (a : A) : GL A := fun w => (a, w).

Definition bind {A B : Type} (m : GL A) (k : A -> GL B) : GL B :=
  fun w => let '(a, w') := m w in k a w'.

Declare Scope gl_scope.
Delimit Scope gl_scope with gl.
Notation "'do' x <- m ; k" := (bind m (fun x => k))
  (at level 10, x name, m at level 100, k at level 200) : gl_scope.
Notation "m ;; k" := (bind m (fun _ => k))
  (at level 100, k at level 200, right associativity) : gl_scope.

(** A call that only changes the world. *)
Definition effect (c : Call.t) (f : World -> World) : GL unit :=
  fun w => (tt, f (log_call c w)).

(** A call that computes its result from the world and then changes it. *)
Definition query {A : Type} (c : Call.t) (r : World -> A) (f : World -> World) : GL A :=
  fun w => (r w, f (log_call c w)).

Definition exec {A : Type} (m : GL A) (w : World) : World := snd (m w).
Definition eval {A : Type} (m : GL A) (w : World) : A := fst (m w).


Local Open Scope gl_scope.

(* ===================================================================== *)
(** ** What the outside world decides                                     *)
(* ===================================================================== *)

(** An event the windowing system hands over in [glfwPollEvents]. *)
Inductive Event : Type :=
| EvKey (key : Z) (action : KeyState)
| EvClose
| EvFramebufferSize (width height : Z).

(** One pass through the loop body reads the clock once and polls once.
    [fi_time] is the reading as line 107 uses it, [(float)glfwGetTime()]. *)
Record FrameInput : Type := {
  fi_time : Glm.float;
  fi_events : list Event
}.

Record Env : Type := {
  env_window_ok : bool;                    (* glfwCreateWindow succeeds *)
  env_loader_ok : bool;                    (* gladLoadGLLoader succeeds *)
  env_decode : string -> option Image;     (* what stb_image finds at a path *)
  env_frames : list FrameInput
}.

(** stb_image's vertical flip: the rows in reverse order. *)
Definition flip_image (img : Image) : Image :=
  {| img_width := img_width img; img_height := img_height img;
     img_channels := img_channels img; img_rows := reverse (img_rows img) |}.

(* ===================================================================== *)
(** ** Output streams                                                     *)
(* ===================================================================== *)

Definition cout_line (s : string) : GL unit :=
  fun w => (tt, with_cout (fun l => l ++ [s]) w).

Definition cerr_line (s : string) : GL unit :=
  fun w => (tt, with_cerr (fun l => l ++ [s]) w).

(* ===================================================================== *)
(** ** OpenGL: what each call does to its part of the state              *)
(* ===================================================================== *)

(** *** Textures *)

Definition bound_texture_2d (t : TextureState) : N :=
  default 0%N (texture_binding_2d t !! active_texture t).

Definition tex_gen (name : N) (t : TextureState) : TextureState :=
  {| active_texture := active_texture t;
     texture_binding_2d := texture_binding_2d t;
     textures := <[name := new_texture]> (textures t) |}.

Definition tex_active (texunit : Z) (t : TextureState) : TextureState :=
  {| active_texture := texunit;
     texture_binding_2d := texture_binding_2d t;
     textures := textures t |}.

(** Binding a name that was never generated is an error in the core
    profile and changes nothing. *)
Definition tex_bind (target : GLenum) (name : N) (t : TextureState) : TextureState :=
  if decide (target = GL_TEXTURE_2D ∧ (name = 0%N ∨ is_Some (textures t !! name)))
  then {| active_texture := active_texture t;
          texture_binding_2d := <[active_texture t := name]> (texture_binding_2d t);
          textures := textures t |}
  else t.

(** Apply [f] to the texture bound to [GL_TEXTURE_2D] on the active unit. *)
Definition on_bound_texture (f : TexObj -> TexObj) (t : TextureState) : TextureState :=
  {| active_texture := active_texture t;
     texture_binding_2d := texture_binding_2d t;
     textures := alter f (bound_texture_2d t) (textures t) |}.

Definition set_tex_parameter (pname param : GLenum) (o : TexObj) : TexObj :=
  match pname with
  | GL_TEXTURE_WRAP_S =>
      {| tex_wrap_s := param; tex_wrap_t := tex_wrap_t o;
         tex_min_filter := tex_min_filter o; tex_mag_filter := tex_mag_filter o;
         tex_image := tex_image o; tex_mipmaps := tex_mipmaps o |}
  | GL_TEXTURE_WRAP_T =>
      {| tex_wrap_s := tex_wrap_s o; tex_wrap_t := param;
         tex_min_filter := tex_min_filter o; tex_mag_filter := tex_mag_filter o;
         tex_image := tex_image o; tex_mipmaps := tex_mipmaps o |}
  | GL_TEXTURE_MIN_FILTER =>
      {| tex_wrap_s := tex_wrap_s o; tex_wrap_t := tex_wrap_t o;
         tex_min_filter := param; tex_mag_filter := tex_mag_filter o;
         tex_image := tex_image o; tex_mipmaps := tex_mipmaps o |}
  | GL_TEXTURE_MAG_FILTER =>
      {| tex_wrap_s := tex_wrap_s o; tex_wrap_t := tex_wrap_t o;
         tex_min_filter := tex_min_filter o; tex_mag_filter := param;
         tex_image := tex_image o; tex_mipmaps := tex_mipmaps o |}
  | _ => o
  end.

Definition tex_parameteri (target pname param : GLenum) (t : TextureState)
    : TextureState :=
  if decide (target = GL_TEXTURE_2D)
  then on_bound_texture (set_tex_parameter pname param) t else t.

Definition set_tex_image (i : TexImage) (o : TexObj) : TexObj :=
  {| tex_wrap_s := tex_wrap_s o; tex_wrap_t := tex_wrap_t o;
     tex_min_filter := tex_min_filter o; tex_mag_filter := tex_mag_filter o;
     tex_image := Some i; tex_mipmaps := false |}.

Definition tex_image2d (target : GLenum) (i : TexImage) (t : TextureState)
    : TextureState :=
  if decide (target = GL_TEXTURE_2D)
  then on_bound_texture (set_tex_image i) t else t.

(** Mipmaps exist only once there is a base image to derive them from. *)
Definition set_tex_mipmaps (o : TexObj) : TexObj :=
  {| tex_wrap_s := tex_wrap_s o; tex_wrap_t := tex_wrap_t o;
     tex_min_filter := tex_min_filter o; tex_mag_filter := tex_mag_filter o;
     tex_image := tex_image o;
     tex_mipmaps := bool_decide (is_Some (tex_image o)) |}.

Definition tex_generate_mipmap (target : GLenum) (t : TextureState) : TextureState :=
  if decide (target = GL_TEXTURE_2D)
  then on_bound_texture set_tex_mipmaps t else t.

(** *** Vertex arrays and buffers *)

Definition geom_gen_vao (name : N) (g : GeometryState) : GeometryState :=
  {| vertex_array_binding := vertex_array_binding g;
     array_buffer_binding := array_buffer_binding g;
     vaos := <[name := new_vao]> (vaos g);
     buffers := buffers g |}.

Definition geom_gen_buffer (name : N) (g : GeometryState) : GeometryState :=
  {| vertex_array_binding := vertex_array_binding g;
     array_buffer_binding := array_buffer_binding g;
     vaos := vaos g;
     buffers := <[name := new_buffer]> (buffers g) |}.

Definition geom_bind_vao (name : N) (g : GeometryState) : GeometryState :=
  if decide (name = 0%N ∨ is_Some (vaos g !! name))
  then {| vertex_array_binding := name;
          array_buffer_binding := array_buffer_binding g;
          vaos := vaos g; buffers := buffers g |}
  else g.

(** Apply [f] to the bound vertex array object. *)
Definition on_bound_vao (f : VaoObj -> VaoObj) (g : GeometryState) : GeometryState :=
  {| vertex_array_binding := vertex_array_binding g;
     array_buffer_binding := array_buffer_binding g;
     vaos := alter f (vertex_array_binding g) (vaos g);
     buffers := buffers g |}.

Definition set_element_buffer (name : N) (v : VaoObj) : VaoObj :=
  {| vao_attribs := vao_attribs v; vao_element_buffer := name |}.

(** The element-array binding is part of the bound vertex array object;
    the array-buffer binding is context state. *)
Definition geom_bind_buffer (target : GLenum) (name : N) (g : GeometryState)
    : GeometryState :=
  if decide (name = 0%N ∨ is_Some (buffers g !! name)) then
    match target with
    | GL_ARRAY_BUFFER =>
        {| vertex_array_binding := vertex_array_binding g;
           array_buffer_binding := name;
           vaos := vaos g; buffers := buffers g |}
    | GL_ELEMENT_ARRAY_BUFFER => on_bound_vao (set_element_buffer name) g
    | _ => g
    end
  else g.

Definition buffer_bound_to (target : GLenum) (g : GeometryState) : N :=
  match target with
  | GL_ARRAY_BUFFER => array_buffer_binding g
  | GL_ELEMENT_ARRAY_BUFFER =>
      default 0%N (vao_element_buffer <$> vaos g !! vertex_array_binding g)
  | _ => 0%N
  end.

Definition geom_buffer_data (target : GLenum) (size : Z) (data : BufData)
    (g : GeometryState) : GeometryState :=
  {| vertex_array_binding := vertex_array_binding g;
     array_buffer_binding := array_buffer_binding g;
     vaos := vaos g;
     buffers := alter (fun _ => {| buf_size := size; buf_data := data |})
                      (buffer_bound_to target g) (buffers g) |}.

(** The state of an attribute nobody has declared yet. *)
Definition new_attrib : VertexAttrib :=
  {| attr_size := 4; attr_type := GL_FLOAT; attr_normalized := false;
     attr_stride := 0; attr_offset := 0; attr_buffer := 0%N; attr_enabled := false |}.

Definition attrib_of (v : VaoObj) (index : Z) : VertexAttrib :=
  default new_attrib (vao_attribs v !! index).

Definition set_attrib_pointer (index size : Z) (type : GLenum) (normalized : bool)
    (stride pointer : Z) (buffer : N) (v : VaoObj) : VaoObj :=
  {| vao_attribs :=
       <[index := {| attr_size := size; attr_type := type;
                     attr_normalized := normalized;
                     attr_stride := stride; attr_offset := pointer;
                     attr_buffer := buffer;
                     attr_enabled := attr_enabled (attrib_of v index) |}]>
         (vao_attribs v);
     vao_element_buffer := vao_element_buffer v |}.

(** The attribute remembers the buffer bound to [GL_ARRAY_BUFFER] at the
    time of the call. *)
Definition geom_attrib_pointer (index size : Z) (type : GLenum) (normalized : bool)
    (stride pointer : Z) (g : GeometryState) : GeometryState :=
  on_bound_vao
    (set_attrib_pointer index size type normalized stride pointer
                        (array_buffer_binding g)) g.

Definition set_attrib_enabled (index : Z) (v : VaoObj) : VaoObj :=
  let a := attrib_of v index in
  {| vao_attribs :=
       <[index := {| attr_size := attr_size a; attr_type := attr_type a;
                     attr_normalized := attr_normalized a;
                     attr_stride := attr_stride a; attr_offset := attr_offset a;
                     attr_buffer := attr_buffer a;
                     attr_enabled := true |}]>
         (vao_attribs v);
     vao_element_buffer := vao_element_buffer v |}.

Definition geom_enable_attrib (index : Z) (g : GeometryState) : GeometryState :=
  on_bound_vao (set_attrib_enabled index) g.

Definition geom_delete_vao (name : N) (g : GeometryState) : GeometryState :=
  {| vertex_array_binding :=
       if decide (vertex_array_binding g = name) then 0%N
       else vertex_array_binding g;
     array_buffer_binding := array_buffer_binding g;
     vaos := delete name (vaos g);
     buffers := buffers g |}.

Definition geom_delete_buffer (name : N) (g : GeometryState) : GeometryState :=
  {| vertex_array_binding := vertex_array_binding g;
     array_buffer_binding :=
       if decide (array_buffer_binding g = name) then 0%N
       else array_buffer_binding g;
     vaos := vaos g;
     buffers := delete name (buffers g) |}.

(** *** Programs *)

Definition set_prog_mat4 (name : string) (m : Glm.mat4) (p : Program) : Program :=
  {| prog_vertex_path := prog_vertex_path p;
     prog_fragment_path := prog_fragment_path p;
     prog_ints := prog_ints p;
     prog_mat4s := <[name := m]> (prog_mat4s p) |}.

Definition shd_uniform_mat4 (location : string) (m : Glm.mat4) (s : ShaderState)
    : ShaderState :=
  {| current_program := current_program s;
     programs := alter (set_prog_mat4 location m) (current_program s) (programs s) |}.

Definition shd_new (name : N) (vertexPath fragmentPath : string) (s : ShaderState)
    : ShaderState :=
  {| current_program := current_program s;
     programs := <[name := {| prog_vertex_path := vertexPath;
                              prog_fragment_path := fragmentPath;
                              prog_ints := ∅; prog_mat4s := ∅ |}]> (programs s) |}.

Definition shd_use (name : N) (s : ShaderState) : ShaderState :=
  {| current_program := name; programs := programs s |}.

Definition set_prog_int (name : string) (v : Z) (p : Program) : Program :=
  {| prog_vertex_path := prog_vertex_path p;
     prog_fragment_path := prog_fragment_path p;
     prog_ints := <[name := v]> (prog_ints p);
     prog_mat4s := prog_mat4s p |}.

Definition shd_set_int (program : N) (name : string) (v : Z) (s : ShaderState)
    : ShaderState :=
  {| current_program := current_program s;
     programs := alter (set_prog_int name v) program (programs s) |}.

(* ===================================================================== *)
(** ** OpenGL entry points                                                *)
(* ===================================================================== *)

(** [glViewport] with non-negative sizes the implementation supports.
    Like every OpenGL entry point below it is a function pointer that
    [gladLoadGLLoader] fills in: the definitions describe the call once
    [gl_loaded] holds and say nothing true of a call made before. *)
Definition glViewport (x y width height : Z) : GL unit :=
  effect (Call.glViewport x y width height) (with_viewport (x, y, width, height)).

(** [glGenTextures(1, &texture)]: the new name is the result. *)
Definition glGenTextures : GL N :=
  fun w =>
    let name := fresh_name (textures (tex w)) in
    (name, with_tex (tex_gen name) (log_call (Call.glGenTextures name) w)).

(** [glActiveTexture(GL_TEXTURE0 + texunit)] for a unit the implementation
    has.  For any other value OpenGL raises [GL_INVALID_ENUM] and keeps the
    active unit; that case is not represented, see [valid_texture_unit]. *)
Definition glActiveTexture (texunit : Z) : GL unit :=
  effect (Call.glActiveTexture texunit) (with_tex (tex_active texunit)).

Definition glBindTexture (target : GLenum) (name : N) : GL unit :=
  effect (Call.glBindTexture target name) (with_tex (tex_bind target name)).

Definition glTexParameteri (target pname param : GLenum) : GL unit :=
  effect (Call.glTexParameteri target pname param)
         (with_tex (tex_parameteri target pname param)).

(** [glTexImage2D(target, 0, internalformat, width, height, 0, format,
    type, data)]: level and border are always [0] in this program. *)
Definition glTexImage2D (target internalformat : GLenum) (width height : Z)
    (format type : GLenum) (data : list (list Z)) : GL unit :=
  effect (Call.glTexImage2D target internalformat width height format type)
    (with_tex (tex_image2d target
                 {| ti_internalformat := internalformat;
                    ti_width := width; ti_height := height;
                    ti_format := format; ti_type := type;
                    ti_rows := data |})).

Definition glGenerateMipmap (target : GLenum) : GL unit :=
  effect (Call.glGenerateMipmap target) (with_tex (tex_generate_mipmap target)).

Definition glGenVertexArrays : GL N :=
  fun w =>
    let name := fresh_name (vaos (geom w)) in
    (name, with_geom (geom_gen_vao name) (log_call (Call.glGenVertexArrays name) w)).

Definition glGenBuffers : GL N :=
  fun w =>
    let name := fresh_name (buffers (geom w)) in
    (name, with_geom (geom_gen_buffer name) (log_call (Call.glGenBuffers name) w)).

Definition glBindVertexArray (name : N) : GL unit :=
  effect (Call.glBindVertexArray name) (with_geom (geom_bind_vao name)).

Definition glBindBuffer (target : GLenum) (name : N) : GL unit :=
  effect (Call.glBindBuffer target name) (with_geom (geom_bind_buffer target name)).

Definition glBufferData (target : GLenum) (size : Z) (data : BufData) (usage : GLenum)
    : GL unit :=
  effect (Call.glBufferData target size usage)
         (with_geom (geom_buffer_data target size data)).

Definition glVertexAttribPointer (index size : Z) (type : GLenum) (normalized : bool)
    (stride pointer : Z) : GL unit :=
  effect (Call.glVertexAttribPointer index size type stride pointer)
         (with_geom (geom_attrib_pointer index size type normalized stride pointer)).

Definition glEnableVertexAttribArray (index : Z) : GL unit :=
  effect (Call.glEnableVertexAttribArray index) (with_geom (geom_enable_attrib index)).

Definition glDeleteVertexArrays (name : N) : GL unit :=
  effect (Call.glDeleteVertexArrays name) (with_geom (geom_delete_vao name)).

Definition glDeleteBuffers (name : N) : GL unit :=
  effect (Call.glDeleteBuffers name) (with_geom (geom_delete_buffer name)).

(** A uniform location is modelled by the uniform's name. *)
Definition glGetUniformLocation (program : N) (name : string) : GL string :=
  query (Call.glGetUniformLocation program name) (fun _ => name) (fun w => w).

Definition glClearColor (r g b a : Glm.float) : GL unit :=
  effect Call.glClearColor (fun w => w).

Definition glClear (mask : GLenum) : GL unit :=
  effect (Call.glClear mask) (fun w => w).

(** [glUniformMatrix4fv(location, 1, GL_FALSE, ptr)] writes into the
    program in use. *)
Definition glUniformMatrix4fv (location : string) (m : Glm.mat4) : GL unit :=
  effect (Call.glUniformMatrix4fv location m) (with_shd (shd_uniform_mat4 location m)).

(** [glDrawElements(mode, count, type, 0)].  Only the call is recorded:
    neither the pixels drawn nor what OpenGL does when an enabled attribute
    reads past the end of its buffer is represented. *)
Definition glDrawElements (mode : GLenum) (count : Z) (type : GLenum) : GL unit :=
  effect (Call.glDrawElements mode count type) (fun w => w).

(* ===================================================================== *)
(** ** The program, over a fixed outside world                            *)
(* ===================================================================== *)

Section Program.

Variable env : Env.

(** *** GLFW entry points *)

Definition glfw_set_initialized (g : GlfwState) : GlfwState :=
  {| glfw_initialized := true; glfw_hints := glfw_hints g;
     windows := windows g; context_current := context_current g |}.

Definition glfwInit : GL unit :=
  effect Call.glfwInit (with_glfw glfw_set_initialized).

Definition glfw_add_hint (hint : GLFWhint) (value : Z) (g : GlfwState) : GlfwState :=
  {| glfw_initialized := glfw_initialized g;
     glfw_hints := glfw_hints g ++ [(hint, value)];
     windows := windows g; context_current := context_current g |}.

Definition glfwWindowHint (hint : GLFWhint) (value : Z) : GL unit :=
  effect (Call.glfwWindowHint hint value) (with_glfw (glfw_add_hint hint value)).

Definition new_window (width height : Z) (title : string) : Window :=
  {| win_width := width; win_height := height; win_title := title;
     win_should_close := false; win_keys := ∅; win_fbsize_callback := None |}.

Definition glfw_add_window (p : N) (win : Window) (g : GlfwState) : GlfwState :=
  {| glfw_initialized := glfw_initialized g; glfw_hints := glfw_hints g;
     windows := <[p := win]> (windows g);
     context_current := context_current g |}.

(** [glfwCreateWindow(width, height, title, nullptr, nullptr)]: a fresh
    non-null pointer, or the null pointer when the outside world refuses. *)
Definition glfwCreateWindow (width height : Z) (title : string) : GL N :=
  fun w =>
    let w := log_call (Call.glfwCreateWindow width height title) w in
    if env_window_ok env then
      let p := fresh_name (windows (glfw w)) in
      (p, with_glfw (glfw_add_window p (new_window width height title)) w)
    else (nullptr, w).

Definition glfw_terminated (g : GlfwState) : GlfwState :=
  {| glfw_initialized := false; glfw_hints := [];
     windows := ∅; context_current := 0%N |}.

(** Destroys every window and context.  The OpenGL objects still in the
    object tables at that point go with the context; the tables are left
    as they are, so that what the program never deleted can be read off
    the final world. *)
Definition glfwTerminate : GL unit :=
  effect Call.glfwTerminate (with_glfw glfw_terminated).

Definition glfw_make_current (window : N) (g : GlfwState) : GlfwState :=
  {| glfw_initialized := glfw_initialized g;
     glfw_hints := glfw_hints g; windows := windows g;
     context_current := window |}.

Definition glfwMakeContextCurrent (window : N) : GL unit :=
  effect (Call.glfwMakeContextCurrent window) (with_glfw (glfw_make_current window)).

Definition on_window (window : N) (f : Window -> Window) (g : GlfwState) : GlfwState :=
  {| glfw_initialized := glfw_initialized g; glfw_hints := glfw_hints g;
     windows := alter f window (windows g);
     context_current := context_current g |}.

Definition set_fbsize_callback (cb : option Callback) (win : Window) : Window :=
  {| win_width := win_width win; win_height := win_height win;
     win_title := win_title win; win_should_close := win_should_close win;
     win_keys := win_keys win; win_fbsize_callback := cb |}.

Definition glfwSetFramebufferSizeCallback (window : N) (cb : Callback) : GL unit :=
  effect (Call.glfwSetFramebufferSizeCallback window)
    (with_glfw (on_window window (set_fbsize_callback (Some cb)))).

(** [gladLoadGLLoader((GLADloadproc)glfwGetProcAddress)]. *)
Definition gladLoadGLLoader : GL bool :=
  query Call.gladLoadGLLoader (fun _ => env_loader_ok env)
        (with_gl_loaded (env_loader_ok env)).

Definition key_state (win : Window) (key : Z) : KeyState :=
  default GLFW_RELEASE (win_keys win !! key).

(** The state of a key of a window as it stands in a world. *)
Definition key_of (window : N) (key : Z) (w : World) : KeyState :=
  default GLFW_RELEASE ((fun win => key_state win key) <$> windows (glfw w) !! window).

Definition glfwGetKey (window : N) (key : Z) : GL KeyState :=
  query (Call.glfwGetKey window key) (key_of window key) (fun w => w).

Definition set_should_close (value : bool) (win : Window) : Window :=
  {| win_width := win_width win; win_height := win_height win;
     win_title := win_title win; win_should_close := value;
     win_keys := win_keys win; win_fbsize_callback := win_fbsize_callback win |}.

Definition glfwSetWindowShouldClose (window : N) (value : bool) : GL unit :=
  effect (Call.glfwSetWindowShouldClose window value)
    (with_glfw (on_window window (set_should_close value))).

(** The close flag of a window as it stands in a world. *)
Definition should_close (window : N) (w : World) : bool :=
  default false (win_should_close <$> windows (glfw w) !! window).

Definition glfwWindowShouldClose (window : N) : GL bool :=
  query (Call.glfwWindowShouldClose window) (should_close window) (fun w => w).

(** The clock is read from the outside world: [now] is what it shows,
    already converted to [float]. *)
Definition glfwGetTime (now : Glm.float) : GL Glm.float :=
  query Call.glfwGetTime (fun _ => now) (fun w => w).

Definition glfwSwapBuffers (window : N) : GL unit :=
  effect (Call.glfwSwapBuffers window) (fun w => w).

(** *** The program's callbacks and input handling *)

(** [framebuffer_size_callback], lines 47-50. *)
Definition framebuffer_size_callback (window : N) (width height : Z) : GL unit :=
  glViewport 0 0 width height.

Definition run_callback (cb : Callback) : N -> Z -> Z -> GL unit :=
  match cb with
  | framebuffer_size_callback_ptr => framebuffer_size_callback
  end.

Definition set_key (key : Z) (action : KeyState) (win : Window) : Window :=
  {| win_width := win_width win; win_height := win_height win;
     win_title := win_title win; win_should_close := win_should_close win;
     win_keys := <[key := action]> (win_keys win);
     win_fbsize_callback := win_fbsize_callback win |}.

Definition set_size (width height : Z) (win : Window) : Window :=
  {| win_width := width; win_height := height;
     win_title := win_title win; win_should_close := win_should_close win;
     win_keys := win_keys win;
     win_fbsize_callback := win_fbsize_callback win |}.

(** GLFW hands an event to the window of the current context, the only
    window of this program.  A close request raises the close flag; GLFW
    itself never lowers it. *)
Definition deliver (ev : Event) : GL unit :=
  fun w =>
    let p := context_current (glfw w) in
    match ev with
    | EvKey key action => (tt, with_glfw (on_window p (set_key key action)) w)
    | EvClose => (tt, with_glfw (on_window p (set_should_close true)) w)
    | EvFramebufferSize width height =>
        let w := with_glfw (on_window p (set_size width height)) w in
        match windows (glfw w) !! p ≫= win_fbsize_callback with
        | Some cb => run_callback cb p width height w
        | None => (tt, w)
        end
    end.

Fixpoint deliver_all (evs : list Event) : GL unit :=
  match evs with
  | [] => ret tt
  | ev :: rest => deliver ev ;; deliver_all rest
  end.

Definition glfwPollEvents (evs : list Event) : GL unit :=
  effect Call.glfwPollEvents (fun w => w) ;; deliver_all evs.

(** [processInput], lines 39-43. *)
Definition processInput (window : N) : GL unit :=
  do k <- glfwGetKey window GLFW_KEY_ESCAPE;
  if decide (k = GLFW_PRESS) then glfwSetWindowShouldClose window true
  else ret tt.

(** *** stb_image *)

Definition stbi_set_flip_vertically_on_load (flag : bool) : GL unit :=
  effect (Call.stbi_set_flip_vertically_on_load flag) (with_flip flag).

(** [stbi_load(path, &width, &height, &nrChannels, 0)]: [None] is the
    null pointer; width, height and channel count travel in the image. *)
Definition stbi_load (path : string) : GL (option Image) :=
  query (Call.stbi_load path)
        (fun w => (fun img => if flip_vertically_on_load w then flip_image img else img)
                    <$> env_decode env path)
        (fun w => w).

Definition stbi_image_free : GL unit :=
  effect Call.stbi_image_free (fun w => w).

(** *** The Shader class *)

(** Modelled from the spec: [Shader.h] is not among the sources.  The
    specification says of it only that it "compiles/links vertex+fragment
    shader source and exposes uniform-setting operations"; the constructor
    therefore creates one program object and nothing here releases it. *)
Definition Shader_new (vertexPath fragmentPath : string) : GL N :=
  fun w =>
    let name := fresh_name (programs (shd w)) in
    (name, with_shd (shd_new name vertexPath fragmentPath)
                    (log_call (Call.Shader_new name) w)).

(** Modelled from the spec: [Shader::use] of the missing [Shader.h]. *)
Definition Shader_use (shader : N) : GL unit :=
  effect (Call.Shader_use shader) (with_shd (shd_use shader)).

(** Modelled from the spec: [Shader::setInt] of the missing [Shader.h]. *)
Definition Shader_setInt (shader : N) (name : string) (v : Z) : GL unit :=
  effect (Call.Shader_setInt shader name v) (with_shd (shd_set_int shader name v)).

(** Modelled from the spec: [Shader::getID] of the missing [Shader.h]. *)
Definition Shader_getID (shader : N) : N := shader.

(** *** initlializeGLFW, lines 53-80 *)

Definition initlializeGLFW : GL N :=
  glfwInit ;;
  glfwWindowHint GLFW_CONTEXT_VERSION_MAJOR 3 ;;
  glfwWindowHint GLFW_CONTEXT_VERSION_MINOR 3 ;;
  glfwWindowHint GLFW_OPENGL_PROFILE GLFW_OPENGL_CORE_PROFILE ;;
  do window <- glfwCreateWindow SCR_WIDTH SCR_HEIGHT "LearnOpenGL";
  if decide (window = nullptr) then
    cerr_line "Failed to create GLFW window" ;;
    glfwTerminate ;;
    ret nullptr
  else
    glfwMakeContextCurrent window ;;
    glfwSetFramebufferSizeCallback window framebuffer_size_callback_ptr ;;
    do loaded <- gladLoadGLLoader;
    if negb loaded then
      cerr_line "failed to initialize GLAD" ;;
      ret nullptr
    else ret window.

(** *** renderLoop, lines 83-117 *)

(** The body of the [while] loop, lines 96-115. *)
Definition renderFrame (frame : FrameInput) (window : N) (transformLoc : string)
    : GL unit :=
  processInput window ;;
  glClearColor 0.2%R 0.3%R 0.3%R 1%R ;;
  glClear GL_COLOR_BUFFER_BIT ;;
  do now <- glfwGetTime (fi_time frame);
  let transform := frameTransform now in
  glUniformMatrix4fv transformLoc transform ;;
  glDrawElements GL_TRIANGLES 6 GL_UNSIGNED_INT ;;
  glfwSwapBuffers window ;;
  glfwPollEvents (fi_events frame).

(** The [while] loop, line 94.  One [FrameInput] is consumed per pass;
    the result is [true] when the loop has left through its condition and
    [false] when the inputs ran out with the window still open. *)
Fixpoint renderLoop_while (frames : list FrameInput) (window : N)
    (transformLoc : string) : GL bool :=
  do closing <- glfwWindowShouldClose window;
  if closing then ret true
  else
    match frames with
    | [] => ret false
    | frame :: rest =>
        renderFrame frame window transformLoc ;;
        renderLoop_while rest window transformLoc
    end.

Definition renderLoop (window shader VAO : N) (textures : list N) : GL bool :=
  Shader_use shader ;;
  Shader_setInt shader "texture1" 0 ;;
  glActiveTexture 0 ;;
  glBindTexture GL_TEXTURE_2D (default 0%N (textures !! 0%nat)) ;;
  glBindVertexArray VAO ;;
  do transformLoc <- glGetUniformLocation (Shader_getID shader) "transform";
  renderLoop_while (env_frames env) window transformLoc.

(** *** generateTexture, lines 121-156 *)

(** The texture name comes back through the reference parameter; here it
    is the result. *)
Definition generateTexture (textureLoc : string) (textureNum : Z) (hasAlpha : bool)
    : GL N :=
  do texture <- glGenTextures;
  glActiveTexture (0 + textureNum) ;;
  glBindTexture GL_TEXTURE_2D texture ;;
  glTexParameteri GL_TEXTURE_2D GL_TEXTURE_WRAP_S GL_REPEAT ;;
  glTexParameteri GL_TEXTURE_2D GL_TEXTURE_WRAP_T GL_REPEAT ;;
  glTexParameteri GL_TEXTURE_2D GL_TEXTURE_MIN_FILTER GL_LINEAR_MIPMAP_LINEAR ;;
  glTexParameteri GL_TEXTURE_2D GL_TEXTURE_MAG_FILTER GL_LINEAR ;;
  (if hasAlpha then stbi_set_flip_vertically_on_load true else ret tt) ;;
  do data <- stbi_load textureLoc;
  match data with
  | Some img =>
      (if hasAlpha then
         glTexImage2D GL_TEXTURE_2D GL_RGB (img_width img) (img_height img)
                      GL_RGBA GL_UNSIGNED_BYTE (img_rows img)
       else
         glTexImage2D GL_TEXTURE_2D GL_RGB (img_width img) (img_height img)
                      GL_RGB GL_UNSIGNED_BYTE (img_rows img)) ;;
      glGenerateMipmap GL_TEXTURE_2D
  | None =>
      cout_line "Failed to load texture"
  end ;;
  stbi_image_free ;;
  glBindTexture GL_TEXTURE_2D 0 ;;
  ret texture.

(** *** main, lines 158-220 *)

Definition vertices : list Glm.float :=
  [ 0.5;  0.5; 0;  1; 1;      (* top right *)
    0.5; -0.5; 0;  1; 0;      (* bottom right *)
   -0.5; -0.5; 0;  0; 0;      (* bottom left *)
   -0.5;  0.5; 0;  0; 1 ]%R.  (* top left *)

Definition indices : list Z :=
  [ 0; 1; 3;      (* first triangle *)
    1; 2; 3 ]%Z.  (* second triangle *)

Definition sizeof_vertices : Z := sizeof_float * Z.of_nat (length vertices).
Definition sizeof_indices : Z := sizeof_int * Z.of_nat (length indices).

(** Lines 185-210: the objects of the quad and its attribute layout.
    The result is [(VAO, VBO, EBO)]. *)
Definition main_geometry : GL (N * N * N) :=
  do VAO <- glGenVertexArrays;
  do VBO <- glGenBuffers;
  do EBO <- glGenBuffers;
  glBindVertexArray VAO ;;
  glBindBuffer GL_ARRAY_BUFFER VBO ;;
  glBufferData GL_ARRAY_BUFFER sizeof_vertices (FloatData vertices) GL_STATIC_DRAW ;;
  glBindBuffer GL_ELEMENT_ARRAY_BUFFER EBO ;;
  glBufferData GL_ELEMENT_ARRAY_BUFFER sizeof_indices (IntData indices) GL_STATIC_DRAW ;;
  glVertexAttribPointer 0 3 GL_FLOAT false (5 * sizeof_float) 0 ;;
  glEnableVertexAttribArray 0 ;;
  glVertexAttribPointer 1 2 GL_FLOAT false (5 * sizeof_float) (6 * sizeof_float) ;;
  glEnableVertexAttribArray 1 ;;
  glBindBuffer GL_ARRAY_BUFFER 0 ;;
  glBindVertexArray 0 ;;
  ret (VAO, VBO, EBO).

(** How a run of [main] ends in the model. *)
Inductive Outcome : Type :=
| Exited (code : Z)     (* [return 0] was reached *)
| StillRunning          (* the inputs ran out inside the render loop *)
| Undefined.            (* the null window handle was used *)

(** [main] does not test the handle it gets from [initlializeGLFW].  With
    a null handle no context is usable and the statements that follow
    have no defined behaviour; the model stops there. *)
Definition main : GL Outcome :=
  do window <- initlializeGLFW;
  if decide (window = nullptr) then ret Undefined
  else
    do shader <- Shader_new vertexShaderPath fragmentShaderPath;
    do texture1 <- generateTexture "./notAbee.jpg" 0 false;
    let textures := [texture1] in
    do objs <- main_geometry;
    let '(VAO, VBO, EBO) := objs in
    do closed <- renderLoop window shader VAO textures;
    if closed then
      glDeleteVertexArrays VAO ;;
      glDeleteBuffers VBO ;;
      glfwTerminate ;;
      ret (Exited 0)
    else ret StillRunning.

End Program.

(* ===================================================================== *)
(** ** Vocabulary of the statements                                       *)
(* ===================================================================== *)

(** *** Textures *)

(** A texture state in which unit [u] is active and has the texture
    [name], with contents [o], bound. *)
Definition focused (u : Z) (name : N) (o : TexObj) (b : gmap Z N) (m : gmap N TexObj)
    : TextureState :=
  {| active_texture := u; texture_binding_2d := <[u := name]> b;
     textures := <[name := o]> m |}.

(** Wrap, filter and image state of a texture that went through
    [generateTexture]. *)
Definition configured (image : option TexImage) (mip : bool) : TexObj :=
  {| tex_wrap_s := GL_REPEAT; tex_wrap_t := GL_REPEAT;
     tex_min_filter := GL_LINEAR_MIPMAP_LINEAR; tex_mag_filter := GL_LINEAR;
     tex_image := image; tex_mipmaps := mip |}.

(** The level-0 image [generateTexture] defines from a decoded image. *)
Definition uploaded (hasAlpha : bool) (img : Image) : TexImage :=
  {| ti_internalformat := GL_RGB;
     ti_width := img_width img; ti_height := img_height img;
     ti_format := if hasAlpha then GL_RGBA else GL_RGB;
     ti_type := GL_UNSIGNED_BYTE;
     ti_rows := img_rows img |}.

(** What [stbi_load] returns inside [generateTexture]: the flip is on if
    the call switches it on or an earlier one left it on. *)
Definition decoded (env : Env) (path : string) (hasAlpha : bool) (w : World)
    : option Image :=
  (fun img => if hasAlpha || flip_vertically_on_load w then flip_image img else img)
    <$> env_decode env path.

(** *** The vertex layout *)

(** Each vertex record is three position floats followed by two texture
    coordinate floats (the rows of [vertices]). *)
Definition position_floats : Z := 3.
Definition texcoord_floats : Z := 2.
Definition floats_per_vertex : Z := position_floats + texcoord_floats.
Definition vertex_count : Z := Z.of_nat (length vertices) / floats_per_vertex.

(** Byte offsets of the two fields inside one record. *)
Definition position_offset : Z := 0.
Definition texcoord_offset : Z := position_floats * sizeof_float.

(** The float stored at a byte offset of a float buffer, if the offset is
    aligned and inside the buffer. *)
Definition float_at (data : list Glm.float) (offset : Z) : option Glm.float :=
  if decide (0 ≤ offset ∧ offset `mod` sizeof_float = 0)%Z
  then data !! Z.to_nat (offset / sizeof_float)
  else None.

(** What OpenGL fetches for attribute [a] of vertex [i] from float data:
    [attr_size a] consecutive floats starting [attr_offset a] bytes into
    record [i], records being [attr_stride a] bytes apart. *)
Definition fetch_attrib (a : VertexAttrib) (data : list Glm.float) (i : Z)
    : option (list Glm.float) :=
  mapM (fun k => float_at data (attr_offset a + i * attr_stride a + k * sizeof_float))
       (seqZ 0 (attr_size a)).

(** The fields of vertex [i] as the layout places them. *)
Definition vertex_texcoord (data : list Glm.float) (i : Z) : option (list Glm.float) :=
  mapM (fun k => float_at data (texcoord_offset + i * (floats_per_vertex * sizeof_float)
                                + k * sizeof_float))
       (seqZ 0 texcoord_floats).

(** The two attributes as lines 202 and 205 declare them, and the vertex
    array object that holds them. *)
Definition position_attrib (VBO : N) : VertexAttrib :=
  {| attr_size := 3; attr_type := GL_FLOAT; attr_normalized := false;
     attr_stride := 5 * sizeof_float; attr_offset := 0;
     attr_buffer := VBO; attr_enabled := true |}.

Definition texcoord_attrib (VBO : N) : VertexAttrib :=
  {| attr_size := 2; attr_type := GL_FLOAT; attr_normalized := false;
     attr_stride := 5 * sizeof_float; attr_offset := 6 * sizeof_float;
     attr_buffer := VBO; attr_enabled := true |}.

Definition quad_vao (VBO EBO : N) : VaoObj :=
  {| vao_attribs := <[1%Z := texcoord_attrib VBO]> (<[0%Z := position_attrib VBO]> ∅);
     vao_element_buffer := EBO |}.

(** *** Object lifetimes in a trace *)

(** The calls that create or release a GPU object. *)
Definition is_lifecycle (c : Call.t) : bool :=
  match c with
  | Call.glGenTextures _ | Call.glDeleteTextures _
  | Call.glGenVertexArrays _ | Call.glDeleteVertexArrays _
  | Call.glGenBuffers _ | Call.glDeleteBuffers _
  | Call.Shader_new _ | Call.Shader_delete _ => true
  | _ => false
  end.

Definition lifecycle (tr : list Call.t) : list Call.t := filter is_lifecycle tr.

(** The calls that mark the render loop in a trace: its condition. *)
Definition is_loop_test (c : Call.t) : bool :=
  match c with
  | Call.glfwWindowShouldClose _ => true
  | _ => false
  end.


(** *** Concrete outside worlds *)

Definition sample_image : Image :=
  {| img_width := 2; img_height := 2; img_channels := 3;
     img_rows := [[255; 0; 0; 0; 255; 0]; [0; 0; 255; 255; 255; 255]]%Z |}.

(** Everything works and the user presses escape during the first frame. *)
Definition env_escape : Env :=
  {| env_window_ok := true; env_loader_ok := true;
     env_decode := fun _ => Some sample_image;
     env_frames := [ {| fi_time := 0%R; fi_events := [EvKey GLFW_KEY_ESCAPE GLFW_PRESS] |};
                     {| fi_time := 1%R; fi_events := [] |} ] |}.

(** The window cannot be created. *)
Definition env_no_window : Env :=
  {| env_window_ok := false; env_loader_ok := true;
     env_decode := fun _ => Some sample_image;
     env_frames := [] |}.

(** The window is created but the OpenGL loader fails. *)
Definition env_no_loader : Env :=
  {| env_window_ok := true; env_loader_ok := false;
     env_decode := fun _ => Some sample_image;
     env_frames := [] |}.

(** Everything works except that no image can be decoded. *)
Definition env_no_image : Env :=
  {| env_window_ok := true; env_loader_ok := true;
     env_decode := fun _ => None;
     env_frames := [] |}.

(** The world right after a successful [initlializeGLFW]. *)
Definition world_ready : World := exec (initlializeGLFW env_escape) initial_world.

Definition window_ready : N := eval (initlializeGLFW env_escape) initial_world.

(** The same with the escape key reported down. *)
Definition world_escape_down : World :=
  exec (deliver (EvKey GLFW_KEY_ESCAPE GLFW_PRESS)) world_ready.

(** The same with a close request delivered. *)
Definition world_closing : World := exec (deliver EvClose) world_ready.

(** *** Windows, events and call counts *)

(** [p] is the window of the current context and it exists. *)
Definition live_window (p : N) (w : World) : Prop :=
  context_current (glfw w) = p /\ is_Some (windows (glfw w) !! p).

(** The framebuffer-size callback installed on a window, if any. *)
Definition callback_of (p : N) (w : World) : option Callback :=
  windows (glfw w) !! p ≫= win_fbsize_callback.


(** How often a kind of call occurs in a trace. *)
Definition count_calls (p : Call.t -> bool) (tr : list Call.t) : nat :=
  length (filter p tr).

Definition is_draw (c : Call.t) : bool :=
  match c with Call.glDrawElements _ _ _ => true | _ => false end.

Definition is_swap (c : Call.t) : bool :=
  match c with Call.glfwSwapBuffers _ => true | _ => false end.

Definition is_poll (c : Call.t) : bool :=
  match c with Call.glfwPollEvents => true | _ => false end.

(** The output streams of a world. *)
Definition streams (w : World) : list string * list string :=
  (std_cout w, std_cerr w).

(** The texture units [glActiveTexture] accepts on every implementation
    of OpenGL 3.3, the version [initlializeGLFW] asks for: the limit
    [GL_MAX_COMBINED_TEXTURE_IMAGE_UNITS] is at least 48 there. *)
Definition guaranteed_texture_units : Z := 48.

Definition valid_texture_unit (texunit : Z) : Prop :=
  (0 <= texunit < guaranteed_texture_units)%Z.


(** The value of an integer uniform of a program, if both exist. *)
Definition uniform_int (program : N) (name : string) (w : World) : option Z :=
  programs (shd w) !! program ≫= fun p => prog_ints p !! name.

(** [w'] shows the same scene as [w]: same textures and texture bindings,
    same vertex arrays and buffers, same program in use, same integer
    uniforms, same output and the same stb_image flag. *)
Definition same_scene (w w' : World) : Prop :=
  tex w' = tex w /\ geom w' = geom w /\
  current_program (shd w') = current_program (shd w) /\
  (forall q name, uniform_int q name w' = uniform_int q name w) /\
  streams w' = streams w /\
  flip_vertically_on_load w' = flip_vertically_on_load w.

(* ===================================================================== *)
(** ** Basic facts                                                        *)
(* ===================================================================== *)

Lemma fresh_name_nonzero {X : Type} (m : gmap N X) : fresh_name m ≠ 0%N.
Proof.
  unfold fresh_name. intros H.
  pose proof (is_fresh ({[0%N]} ∪ dom m)) as Hf. rewrite H in Hf. set_solver.
Qed.

Lemma fresh_name_unused {X : Type} (m : gmap N X) : m !! fresh_name m = None.
Proof.
  unfold fresh_name. apply not_elem_of_dom.
  pose proof (is_fresh ({[0%N]} ∪ dom m)) as Hf. set_solver.
Qed.

(** Splits a world into its fields, so that projections compute. *)
Ltac open_world w :=
  destruct w as [[? ? ? ?] ? ? [? ? ?] [? ? ? ?] [? ?] ? ? ? ?].

(** Unfolds the monad, the entry points and the world projections,
    nothing else. *)
Ltac run :=
  lazy beta iota zeta delta [exec eval bind ret effect query fst snd negb
       fmap option_fmap option_map
       tex glfw gl_loaded viewport geom shd flip_vertically_on_load
       std_cout std_cerr trace
       active_texture texture_binding_2d textures
       vertex_array_binding array_buffer_binding vaos buffers
       current_program programs
       glfw_initialized glfw_hints windows context_current
       glfw_set_initialized glfw_add_hint glfw_add_window glfw_terminated
       glfw_make_current
       with_tex with_glfw with_gl_loaded with_viewport with_geom with_shd
       with_flip with_cout with_cerr log_call
       cout_line cerr_line
       glViewport glGenTextures glActiveTexture glBindTexture glTexParameteri
       glTexImage2D glGenerateMipmap glGenVertexArrays glGenBuffers
       glBindVertexArray glBindBuffer glBufferData glVertexAttribPointer
       glEnableVertexAttribArray glDeleteVertexArrays glDeleteBuffers
       glGetUniformLocation glClearColor glClear glUniformMatrix4fv glDrawElements
       glfwInit glfwWindowHint glfwTerminate glfwMakeContextCurrent
       glfwSetFramebufferSizeCallback gladLoadGLLoader glfwGetKey
       glfwSetWindowShouldClose glfwWindowShouldClose glfwGetTime glfwSwapBuffers
       stbi_set_flip_vertically_on_load stbi_load stbi_image_free
       Shader_new Shader_use Shader_setInt Shader_getID].

(* ===================================================================== *)
(** ** generateTexture                                                    *)
(* ===================================================================== *)

Section TextureFacts.

Lemma tex_bind_gen u name t :
  tex_bind GL_TEXTURE_2D name (tex_active u (tex_gen name t))
  = focused u name new_texture (texture_binding_2d t) (textures t).
Proof.
  unfold tex_bind, tex_active, tex_gen, focused;
    cbn [active_texture texture_binding_2d textures].
  rewrite decide_True; [reflexivity|].
  split; [reflexivity|]. right. rewrite lookup_insert_eq. eauto.
Qed.

Lemma bound_focused u name o b m : bound_texture_2d (focused u name o b m) = name.
Proof. unfold bound_texture_2d, focused; cbn. by rewrite lookup_insert_eq. Qed.

Lemma on_bound_focused f u name o b m :
  on_bound_texture f (focused u name o b m) = focused u name (f o) b m.
Proof.
  unfold on_bound_texture. rewrite bound_focused. unfold focused; cbn.
  by rewrite alter_insert_eq.
Qed.

Lemma tex_parameteri_focused p v u name o b m :
  tex_parameteri GL_TEXTURE_2D p v (focused u name o b m)
  = focused u name (set_tex_parameter p v o) b m.
Proof. unfold tex_parameteri. rewrite decide_True by done. apply on_bound_focused. Qed.

Lemma tex_image2d_focused i u name o b m :
  tex_image2d GL_TEXTURE_2D i (focused u name o b m)
  = focused u name (set_tex_image i o) b m.
Proof. unfold tex_image2d. rewrite decide_True by done. apply on_bound_focused. Qed.

Lemma tex_generate_mipmap_focused u name o b m :
  tex_generate_mipmap GL_TEXTURE_2D (focused u name o b m)
  = focused u name (set_tex_mipmaps o) b m.
Proof.
  unfold tex_generate_mipmap. rewrite decide_True by done. apply on_bound_focused.
Qed.

Lemma tex_unbind_focused u name o b m :
  tex_bind GL_TEXTURE_2D 0%N (focused u name o b m)
  = {| active_texture := u; texture_binding_2d := <[u := 0%N]> b;
       textures := <[name := o]> m |}.
Proof.
  unfold tex_bind. rewrite decide_True by (split; [done|by left]).
  unfold focused; cbn. by rewrite insert_insert_eq.
Qed.

Ltac tex_steps :=
  rewrite ?Z.add_0_l, ?tex_bind_gen, ?tex_parameteri_focused, ?tex_image2d_focused,
    ?tex_generate_mipmap_focused, ?tex_unbind_focused.

Variable env : Env.

(** The name that comes back is the fresh one. *)
Lemma generateTexture_eval path u alpha w :
  eval (generateTexture env path u alpha) w = fresh_name (textures (tex w)).
Proof.
  open_world w. unfold eval, generateTexture. run.
  destruct alpha; run; destruct (env_decode env path); run; reflexivity.
Qed.

(** The texture state after the call, in closed form. *)
Lemma generateTexture_tex path u alpha w :
  tex (exec (generateTexture env path u alpha) w) =
  {| active_texture := u;
     texture_binding_2d := <[u := 0%N]> (texture_binding_2d (tex w));
     textures := <[fresh_name (textures (tex w)) :=
                   match decoded env path alpha w with
                   | Some img => configured (Some (uploaded alpha img)) true
                   | None => configured None false
                   end]> (textures (tex w)) |}.
Proof.
  open_world w. unfold exec, generateTexture, decoded. run.
  destruct alpha; run; destruct (env_decode env path) as [img|]; run; tex_steps;
    do 2 f_equal; try match goal with b : bool |- _ => destruct b end; reflexivity.
Qed.

Lemma generateTexture_object path u alpha w :
  textures (tex (exec (generateTexture env path u alpha) w))
    !! eval (generateTexture env path u alpha) w
  = Some match decoded env path alpha w with
         | Some img => configured (Some (uploaded alpha img)) true
         | None => configured None false
         end.
Proof.
  rewrite generateTexture_eval, generateTexture_tex. cbn [textures].
  apply lookup_insert_eq.
Qed.

Lemma generateTexture_cout path u alpha w :
  std_cout (exec (generateTexture env path u alpha) w)
  = std_cout w ++ match env_decode env path with
                  | Some _ => []
                  | None => ["Failed to load texture"]
                  end.
Proof.
  open_world w. unfold exec, generateTexture. run.
  destruct alpha; run; destruct (env_decode env path); run;
    rewrite ?app_nil_r; reflexivity.
Qed.

Lemma generateTexture_flip path u alpha w :
  flip_vertically_on_load (exec (generateTexture env path u alpha) w)
  = alpha || flip_vertically_on_load w.
Proof.
  open_world w. unfold exec, generateTexture. run.
  destruct alpha; run; destruct (env_decode env path); run; reflexivity.
Qed.

(** C8.  Whatever the decode does, the texture that [generateTexture]
    returns ends with wrap mode repeat on S and on T, minification filter
    linear-mipmap-linear and magnification filter linear. *)
Theorem generateTexture_parameters path u alpha w :
  exists o : TexObj,
    textures (tex (exec (generateTexture env path u alpha) w))
      !! eval (generateTexture env path u alpha) w = Some o /\
    tex_wrap_s o = GL_REPEAT /\ tex_wrap_t o = GL_REPEAT /\
    tex_min_filter o = GL_LINEAR_MIPMAP_LINEAR /\ tex_mag_filter o = GL_LINEAR.
Proof.
  eexists. split; [apply generateTexture_object|].
  destruct (decoded env path alpha w); repeat split.
Qed.

(** C2, as amended.  When the decode fails, [generateTexture] logs the
    failure and returns normally; the new texture object exists with its
    parameters set and no image, and it is no longer bound: the function
    ends by binding 0 on the texture unit it selected. *)
Theorem generateTexture_decode_failure path u alpha w :
  env_decode env path = None ->
  let w' := exec (generateTexture env path u alpha) w in
  let texture := eval (generateTexture env path u alpha) w in
  std_cout w' = std_cout w ++ ["Failed to load texture"] /\
  active_texture (tex w') = u /\
  bound_texture_2d (tex w') = 0%N /\
  texture <> 0%N /\
  textures (tex w') !! texture = Some (configured None false).
Proof.
  intros Hfail w' texture. subst w' texture. repeat split.
  - rewrite generateTexture_cout, Hfail. reflexivity.
  - rewrite generateTexture_tex. reflexivity.
  - rewrite generateTexture_tex. unfold bound_texture_2d.
    cbn [texture_binding_2d active_texture]. by rewrite lookup_insert_eq.
  - rewrite generateTexture_eval. apply fresh_name_nonzero.
  - rewrite generateTexture_object. unfold decoded. rewrite Hfail. reflexivity.
Qed.

(** C6, as amended.  When the decode succeeds, the rows come flipped if
    the alpha flag is set (or an earlier call left the flip on), the pixel
    data is handed over as RGBA with the flag and as RGB without it, the
    texture's internal format is RGB either way, and mipmaps are
    generated. *)
Theorem generateTexture_decode_success path u alpha w img :
  env_decode env path = Some img ->
  let w' := exec (generateTexture env path u alpha) w in
  let texture := eval (generateTexture env path u alpha) w in
  exists (o : TexObj) (i : TexImage),
    textures (tex w') !! texture = Some o /\
    tex_image o = Some i /\
    ti_internalformat i = GL_RGB /\
    ti_format i = (if alpha then GL_RGBA else GL_RGB) /\
    ti_type i = GL_UNSIGNED_BYTE /\
    ti_width i = img_width img /\ ti_height i = img_height img /\
    ti_rows i = (if alpha || flip_vertically_on_load w
                 then reverse (img_rows img) else img_rows img) /\
    tex_mipmaps o = true /\
    flip_vertically_on_load w' = alpha || flip_vertically_on_load w /\
    std_cout w' = std_cout w.
Proof.
  intros Hok w' texture. subst w' texture.
  eexists _, _. split; [apply generateTexture_object|].
  unfold decoded. rewrite Hok. cbn [fmap option_fmap option_map].
  cbn [configured uploaded tex_image tex_mipmaps ti_internalformat ti_format ti_type
       ti_width ti_height ti_rows].
  repeat split.
  - destruct (alpha || flip_vertically_on_load w); reflexivity.
  - destruct (alpha || flip_vertically_on_load w); reflexivity.
  - destruct (alpha || flip_vertically_on_load w); reflexivity.
  - apply generateTexture_flip.
  - rewrite generateTexture_cout, Hok. apply app_nil_r.
Qed.

End TextureFacts.

(** A run of C2's amended statement: [env_no_image] decodes nothing. *)
Lemma generateTexture_decode_failure_witness :
  let call := generateTexture env_no_image "./notAbee.jpg" 0 false in
  std_cout (exec call initial_world) = ["Failed to load texture"] /\
  active_texture (tex (exec call initial_world)) = 0%Z /\
  bound_texture_2d (tex (exec call initial_world)) = 0%N /\
  eval call initial_world <> 0%N /\
  textures (tex (exec call initial_world)) !! eval call initial_world
  = Some (configured None false).
Proof.
  apply (generateTexture_decode_failure env_no_image "./notAbee.jpg" 0 false
           initial_world).
  reflexivity.
Defined.

(** C2 as stated fails: after a failed decode the texture is not bound.
    The binding of the active unit is 0 while the texture is object 1. *)
Lemma generateTexture_failure_not_bound :
  let call := generateTexture env_no_image "./notAbee.jpg" 0 false in
  env_decode env_no_image "./notAbee.jpg" = None /\
  eval call initial_world = 1%N /\
  bound_texture_2d (tex (exec call initial_world)) = 0%N /\
  bound_texture_2d (tex (exec call initial_world)) <> eval call initial_world.
Proof. vm_compute. repeat split; discriminate. Qed.

(** A run of C6's amended statement with the alpha flag set. *)
Lemma generateTexture_decode_success_witness :
  let call := generateTexture env_escape "./notAbee.jpg" 0 true in
  exists (o : TexObj) (i : TexImage),
    textures (tex (exec call initial_world)) !! eval call initial_world = Some o /\
    tex_image o = Some i /\
    ti_internalformat i = GL_RGB /\
    ti_format i = GL_RGBA /\
    ti_type i = GL_UNSIGNED_BYTE /\
    ti_width i = 2%Z /\ ti_height i = 2%Z /\
    ti_rows i = [[0; 0; 255; 255; 255; 255]; [255; 0; 0; 0; 255; 0]]%Z /\
    tex_mipmaps o = true /\
    flip_vertically_on_load (exec call initial_world) = true /\
    std_cout (exec call initial_world) = [].
Proof.
  apply (generateTexture_decode_success env_escape "./notAbee.jpg" 0 true
           initial_world sample_image).
  reflexivity.
Defined.

(** C6 as stated fails: with the alpha flag set and a decodable image the
    texture is not an RGBA texture, its internal format is RGB. *)
Lemma generateTexture_alpha_is_rgb_texture :
  let call := generateTexture env_escape "./notAbee.jpg" 0 true in
  env_decode env_escape "./notAbee.jpg" = Some sample_image /\
  (textures (tex (exec call initial_world)) !! eval call initial_world
     ≫= tex_image) ≫= (fun i => Some (ti_internalformat i)) = Some GL_RGB /\
  GL_RGB <> GL_RGBA.
Proof. vm_compute. repeat split; discriminate. Qed.


(* ===================================================================== *)
(** ** The quad's buffers and attribute layout                            *)
(* ===================================================================== *)

Section GeometryFacts.

Lemma fresh_name_insert_ne {X : Type} (m : gmap N X) (x : X) :
  fresh_name (<[fresh_name m := x]> m) ≠ fresh_name m.
Proof.
  intros H. pose proof (fresh_name_unused (<[fresh_name m := x]> m)) as Hu.
  rewrite H, lookup_insert_eq in Hu. discriminate.
Qed.

Lemma geom_bind_vao_known n va ab vs bs :
  n = 0%N ∨ is_Some (vs !! n) ->
  geom_bind_vao n (Build_GeometryState va ab vs bs) = Build_GeometryState n ab vs bs.
Proof. intros H. unfold geom_bind_vao; cbn. by rewrite decide_True. Qed.

Lemma geom_bind_array_buffer_known n va ab vs bs :
  n = 0%N ∨ is_Some (bs !! n) ->
  geom_bind_buffer GL_ARRAY_BUFFER n (Build_GeometryState va ab vs bs)
  = Build_GeometryState va n vs bs.
Proof. intros H. unfold geom_bind_buffer; cbn. by rewrite decide_True. Qed.

Lemma geom_bind_element_buffer_known n va ab vs bs :
  n = 0%N ∨ is_Some (bs !! n) ->
  geom_bind_buffer GL_ELEMENT_ARRAY_BUFFER n (Build_GeometryState va ab vs bs)
  = Build_GeometryState va ab (alter (set_element_buffer n) va vs) bs.
Proof. intros H. unfold geom_bind_buffer; cbn. by rewrite decide_True. Qed.

Lemma geom_buffer_data_array size data usage_va ab vs bs :
  geom_buffer_data GL_ARRAY_BUFFER size data (Build_GeometryState usage_va ab vs bs)
  = Build_GeometryState usage_va ab vs
      (alter (fun _ => {| buf_size := size; buf_data := data |}) ab bs).
Proof. reflexivity. Qed.

Lemma geom_buffer_data_element size data va ab vs bs :
  geom_buffer_data GL_ELEMENT_ARRAY_BUFFER size data (Build_GeometryState va ab vs bs)
  = Build_GeometryState va ab vs
      (alter (fun _ => {| buf_size := size; buf_data := data |})
             (default 0%N (vao_element_buffer <$> vs !! va)) bs).
Proof. reflexivity. Qed.

Lemma geom_attrib_pointer_bound index size type normalized stride pointer va ab vs bs :
  geom_attrib_pointer index size type normalized stride pointer
    (Build_GeometryState va ab vs bs)
  = Build_GeometryState va ab
      (alter (set_attrib_pointer index size type normalized stride pointer ab) va vs) bs.
Proof. reflexivity. Qed.

Lemma geom_enable_attrib_bound index va ab vs bs :
  geom_enable_attrib index (Build_GeometryState va ab vs bs)
  = Build_GeometryState va ab (alter (set_attrib_enabled index) va vs) bs.
Proof. reflexivity. Qed.

(** The vertex array object after the two declarations, computed. *)
Lemma quad_vao_computed VBO EBO :
  set_attrib_enabled 1
    (set_attrib_pointer 1 2 GL_FLOAT false (5 * sizeof_float) (6 * sizeof_float) VBO
       (set_attrib_enabled 0
          (set_attrib_pointer 0 3 GL_FLOAT false (5 * sizeof_float) 0 VBO
             (set_element_buffer EBO new_vao))))
  = quad_vao VBO EBO.
Proof.
  unfold quad_vao, set_attrib_enabled, set_attrib_pointer, set_element_buffer,
    attrib_of, new_vao; cbn [vao_attribs vao_element_buffer].
  f_equal.
Qed.

(** The names [main_geometry] hands out and the state it leaves. *)
Lemma main_geometry_eval w :
  eval main_geometry w
  = (fresh_name (vaos (geom w)),
     fresh_name (buffers (geom w)),
     fresh_name (<[fresh_name (buffers (geom w)) := new_buffer]> (buffers (geom w)))).
Proof. open_world w. reflexivity. Qed.

Lemma main_geometry_geom w :
  let VAO := fresh_name (vaos (geom w)) in
  let VBO := fresh_name (buffers (geom w)) in
  let EBO := fresh_name (<[VBO := new_buffer]> (buffers (geom w))) in
  geom (exec main_geometry w) =
  {| vertex_array_binding := 0%N;
     array_buffer_binding := 0%N;
     vaos := <[VAO := quad_vao VBO EBO]> (vaos (geom w));
     buffers :=
       <[EBO := {| buf_size := sizeof_indices; buf_data := IntData indices |}]>
         (<[VBO := {| buf_size := sizeof_vertices; buf_data := FloatData vertices |}]>
            (buffers (geom w))) |}.
Proof.
  open_world w. unfold exec, main_geometry. run.
  lazy beta iota zeta delta [geom_gen_vao geom_gen_buffer
    vertex_array_binding array_buffer_binding vaos buffers].
  match goal with |- context [fresh_name ?m] =>
    match type of m with gmap N VaoObj => set (VAO := fresh_name m) end end.
  match goal with |- context [fresh_name (<[fresh_name ?m := _]> ?m)] =>
    set (VBO := fresh_name m) end.
  set (EBO := fresh_name (<[VBO := new_buffer]> _)).
  assert (Hne : EBO ≠ VBO) by apply fresh_name_insert_ne.
  assert (Hne' : VBO ≠ EBO) by (intros H; apply Hne; symmetry; exact H).
  rewrite (geom_bind_vao_known VAO) by (right; rewrite lookup_insert_eq; eauto).
  rewrite (geom_bind_array_buffer_known VBO)
    by (right; rewrite lookup_insert_ne, lookup_insert_eq by done; eauto).
  rewrite geom_buffer_data_array.
  rewrite (geom_bind_element_buffer_known EBO).
  2:{ right. rewrite lookup_alter_ne, lookup_insert_eq by done. eauto. }
  rewrite geom_buffer_data_element.
  rewrite !geom_attrib_pointer_bound, !geom_enable_attrib_bound.
  rewrite geom_attrib_pointer_bound, geom_enable_attrib_bound.
  rewrite (geom_bind_array_buffer_known 0%N) by (by left).
  rewrite (geom_bind_vao_known 0%N) by (by left).
  rewrite !alter_insert_eq, lookup_insert_eq. cbn [fmap option_fmap option_map default].
  rewrite quad_vao_computed. cbn [vao_element_buffer set_element_buffer].
  f_equal.
  rewrite alter_insert_ne by done. rewrite !alter_insert_eq. reflexivity.
Qed.
End GeometryFacts.

Section LayoutFacts.

Local Open Scope Z_scope.

Lemma layout_constants :
  floats_per_vertex = 5 /\ vertex_count = 4 /\ sizeof_vertices = 80 /\
  sizeof_indices = 24 /\ position_offset = 0 /\ texcoord_offset = 12.
Proof. repeat split. Qed.

(** C4, evaluated on the code.  Both attributes are declared with a stride
    of 5 floats, the position attribute has 3 floats at byte offset 0 and
    stride times the vertex count is the size of the vertex buffer.  The
    texture-coordinate attribute, however, is declared at byte offset
    6 * sizeof(float) = 24, while the coordinates sit at byte offset
    3 * sizeof(float) = 12 of each record: OpenGL fetches (-0.5, 0) for
    vertex 0, whose texture coordinate is (1, 1), and reads past the end of
    the buffer for vertex 3. *)
Theorem main_geometry_layout (w : World) :
  let '(VAO, VBO, EBO) := eval main_geometry w in
  let w' := exec main_geometry w in
  exists (vao : VaoObj) (vbo : BufObj),
    vaos (geom w') !! VAO = Some vao /\
    buffers (geom w') !! VBO = Some vbo /\
    buf_data vbo = FloatData vertices /\
    attr_stride (attrib_of vao 0) = floats_per_vertex * sizeof_float /\
    attr_stride (attrib_of vao 1) = floats_per_vertex * sizeof_float /\
    attr_size (attrib_of vao 0) = position_floats /\
    attr_offset (attrib_of vao 0) = position_offset /\
    attr_size (attrib_of vao 1) = texcoord_floats /\
    attr_stride (attrib_of vao 0) * vertex_count = buf_size vbo /\
    attr_offset (attrib_of vao 1) = 24 /\
    texcoord_offset = 12 /\
    fetch_attrib (attrib_of vao 1) vertices 0 = Some [-0.5; 0]%R /\
    vertex_texcoord vertices 0 = Some [1; 1]%R /\
    fetch_attrib (attrib_of vao 1) vertices 3 = None.
Proof.
  rewrite main_geometry_eval. cbv zeta.
  rewrite main_geometry_geom. cbn [vaos buffers].
  set (VAO := fresh_name (vaos (geom w))).
  set (VBO := fresh_name (buffers (geom w))).
  set (EBO := fresh_name (<[VBO := new_buffer]> (buffers (geom w)))).
  assert (Hne : EBO ≠ VBO) by apply fresh_name_insert_ne.
  exists (quad_vao VBO EBO),
         {| buf_size := sizeof_vertices; buf_data := FloatData vertices |}.
  split; [apply lookup_insert_eq|].
  split; [rewrite lookup_insert_ne by done; apply lookup_insert_eq|].
  repeat split.
Qed.

(** C5.  The index buffer has 6 entries, each of them below the vertex
    count 4, and every vertex 0..3 occurs among them. *)
Theorem indices_consistent :
  length indices = 6%nat /\
  vertex_count = 4 /\
  Forall (fun i => 0 <= i < vertex_count) indices /\
  Forall (fun v => v ∈ indices) (seqZ 0 vertex_count).
Proof.
  split; [reflexivity|]. split; [reflexivity|]. split.
  - change vertex_count with 4. unfold indices.
    repeat (constructor; [lia|]). constructor.
  - change (seqZ 0 vertex_count) with [0; 1; 2; 3]. unfold indices.
    repeat (constructor; [set_solver|]). constructor.
Qed.

End LayoutFacts.

(* ===================================================================== *)
(** ** Input, initialisation and the render loop                          *)
(* ===================================================================== *)

Section WindowFacts.

(** C7.  If [processInput] sees the escape key down, the close flag of
    the window is set afterwards; if no key is down, or just escape is up,
    the flag is what it was and nothing else about the windows changes. *)
Theorem processInput_spec (window : N) (w : World) :
  (key_of window GLFW_KEY_ESCAPE w = GLFW_PRESS ->
   should_close window (exec (processInput window) w) = true) /\
  ((forall key : Z, key_of window key w = GLFW_RELEASE) ->
   should_close window (exec (processInput window) w) = should_close window w) /\
  (key_of window GLFW_KEY_ESCAPE w = GLFW_RELEASE ->
   glfw (exec (processInput window) w) = glfw w).
Proof.
  assert (Hup : key_of window GLFW_KEY_ESCAPE w = GLFW_RELEASE ->
                glfw (exec (processInput window) w) = glfw w).
  { intros Hk. open_world w. unfold exec, processInput in *. run.
    unfold key_of in *. cbn [glfw windows] in *. rewrite Hk.
    rewrite decide_False by discriminate. reflexivity. }
  split; [|split; [|exact Hup]].
  - intros Hk. open_world w. unfold exec, processInput, should_close in *. run.
    unfold key_of in *. cbn [glfw windows] in *. rewrite Hk.
    rewrite decide_True by reflexivity. run.
    unfold on_window; cbn [windows]. rewrite lookup_alter_eq.
    match goal with H : context [?ws !! window] |- _ =>
      destruct (ws !! window); [reflexivity | discriminate H] end.
  - intros Hall. unfold should_close. rewrite Hup by apply Hall. reflexivity.
Qed.

(** C9.  [initlializeGLFW] returns the null handle exactly when the
    window cannot be created or the loader fails, and then one message
    has gone to the error stream; otherwise nothing is logged and the
    handle is that of a window of 800 by 600 whose framebuffer-size
    callback is [framebuffer_size_callback] and whose context is current. *)
Theorem initlializeGLFW_spec (env : Env) (w : World) :
  let window := eval (initlializeGLFW env) w in
  let w' := exec (initlializeGLFW env) w in
  (window = nullptr <-> env_window_ok env = false \/ env_loader_ok env = false) /\
  (window = nullptr ->
   exists msg : string, std_cerr w' = std_cerr w ++ [msg]) /\
  (window <> nullptr ->
   std_cerr w' = std_cerr w /\
   context_current (glfw w') = window /\
   exists win : Window,
     windows (glfw w') !! window = Some win /\
     win_width win = 800%Z /\ win_height win = 600%Z /\
     win_fbsize_callback win = Some framebuffer_size_callback_ptr).
Proof.
  open_world w. destruct env as [wok lok dec frs].
  unfold eval, exec, initlializeGLFW, glfwCreateWindow, gladLoadGLLoader.
  cbn [env_window_ok env_loader_ok].
  destruct wok; run.
  - rewrite decide_False by apply fresh_name_nonzero.
    destruct lok; run.
    + split; [|split].
      * split; [intros H; by apply fresh_name_nonzero in H | intros [H|H]; discriminate H].
      * intros H. by apply fresh_name_nonzero in H.
      * intros _. split; [reflexivity|]. split; [reflexivity|].
        eexists. unfold on_window; cbn [windows].
        rewrite lookup_alter_eq, lookup_insert_eq. cbn [fmap option_fmap option_map].
        repeat split.
    + split; [|split].
      * split; [by right | reflexivity].
      * intros _. by eexists.
      * intros H. by destruct H.
  - rewrite decide_True by reflexivity. run.
    split; [|split].
    + split; [by left | reflexivity].
    + intros _. by eexists.
    + intros H. by destruct H.
Qed.

End WindowFacts.

(** Runs of C9: a successful start, a refused window, a failed loader. *)
Lemma initlializeGLFW_spec_witness :
  (std_cerr world_ready = [] /\
   context_current (glfw world_ready) = window_ready /\
   exists win : Window,
     windows (glfw world_ready) !! window_ready = Some win /\
     win_width win = 800%Z /\ win_height win = 600%Z /\
     win_fbsize_callback win = Some framebuffer_size_callback_ptr) /\
  (exists msg : string,
     std_cerr (exec (initlializeGLFW env_no_window) initial_world) = [] ++ [msg]) /\
  (exists msg : string,
     std_cerr (exec (initlializeGLFW env_no_loader) initial_world) = [] ++ [msg]).
Proof.
  split; [|split].
  - apply (initlializeGLFW_spec env_escape initial_world). vm_compute. discriminate.
  - apply (initlializeGLFW_spec env_no_window initial_world). reflexivity.
  - apply (initlializeGLFW_spec env_no_loader initial_world). reflexivity.
Defined.

(** Runs of C7: escape down in [world_escape_down], nothing down in
    [world_ready]. *)
Lemma processInput_spec_witness :
  should_close window_ready (exec (processInput window_ready) world_escape_down) = true /\
  should_close window_ready (exec (processInput window_ready) world_ready)
  = should_close window_ready world_ready /\
  glfw (exec (processInput window_ready) world_ready) = glfw world_ready.
Proof.
  destruct (processInput_spec window_ready world_escape_down) as [Hdown _].
  destruct (processInput_spec window_ready world_ready) as [_ [Hidle Hup]].
  split; [apply Hdown; reflexivity|].
  split; [apply Hidle; intros key; reflexivity | apply Hup; reflexivity].
Defined.


Section LoopFacts.

(** The close flag only reads the window table. *)
Lemma should_close_same_windows p w1 w2 :
  windows (glfw w1) = windows (glfw w2) -> should_close p w1 = should_close p w2.
Proof. unfold should_close. by intros ->. Qed.

(** Changing a window by a function that keeps a raised flag raised keeps
    every raised flag raised. *)
Lemma should_close_on_window p q (f : Window -> Window) w :
  (forall win, win_should_close win = true -> win_should_close (f win) = true) ->
  should_close p w = true ->
  should_close p (with_glfw (on_window q f) w) = true.
Proof.
  intros Hf. open_world w. unfold should_close, on_window. run.
  rewrite lookup_alter. destruct (decide (q = p)) as [->|Hne].
  - match goal with |- context [?ws !! p] => destruct (ws !! p) as [win|] end;
      cbn [fmap option_fmap option_map default]; [|discriminate].
    apply Hf.
  - trivial.
Qed.

Lemma processInput_keeps_flag p window w :
  should_close p w = true -> should_close p (exec (processInput window) w) = true.
Proof.
  intros H. unfold exec, processInput. run.
  destruct (decide (key_of window GLFW_KEY_ESCAPE w = GLFW_PRESS)); run.
  - apply should_close_on_window; [reflexivity|].
    rewrite <- H. by apply should_close_same_windows.
  - rewrite <- H. by apply should_close_same_windows.
Qed.

Lemma deliver_keeps_flag p ev w :
  should_close p w = true -> should_close p (exec (deliver ev) w) = true.
Proof.
  intros H. unfold exec, deliver. destruct ev as [key action| |width height].
  - apply should_close_on_window; [intros win Hw; exact Hw | exact H].
  - apply should_close_on_window; [reflexivity | exact H].
  - cbv zeta.
    assert (Hs : should_close p
                   (with_glfw (on_window (context_current (glfw w)) (set_size width height)) w)
                 = true)
      by (apply should_close_on_window; [intros win Hw; exact Hw | exact H]).
    destruct (windows _ !! _ ≫= win_fbsize_callback) as [[]|]; [|exact Hs].
    rewrite <- Hs. by apply should_close_same_windows.
Qed.

Lemma deliver_all_keeps_flag p evs w :
  should_close p w = true -> should_close p (exec (deliver_all evs) w) = true.
Proof.
  revert w. induction evs as [|ev evs IH]; intros w H; [exact H|].
  pose proof (deliver_keeps_flag p ev w H) as Hd.
  cbn [deliver_all]. unfold exec, bind in *.
  destruct (deliver ev w) as [[] w1]. apply IH. exact Hd.
Qed.

Lemma renderFrame_keeps_flag p frame window loc w :
  should_close p w = true ->
  should_close p (exec (renderFrame frame window loc) w) = true.
Proof.
  intros H. unfold renderFrame, glfwPollEvents.
  pose proof (processInput_keeps_flag p window w H) as Hp.
  unfold exec, bind in *. destruct (processInput window w) as [[] w1].
  run. cbn [snd] in Hp.
  match goal with |- context [deliver_all ?evs ?w2] =>
    apply (deliver_all_keeps_flag p evs w2) end.
  rewrite <- Hp. by apply should_close_same_windows.
Qed.

(** Event delivery only ever extends the trace. *)
Lemma deliver_all_trace evs w :
  exists tr : list Call.t, trace (exec (deliver_all evs) w) = trace w ++ tr.
Proof.
  revert w. induction evs as [|ev evs IH]; intros w.
  - exists []. symmetry. apply app_nil_r.
  - assert (Hd : exists tr, trace (exec (deliver ev) w) = trace w ++ tr).
    { unfold exec, deliver. destruct ev as [key action| |width height].
      - exists []. symmetry. apply app_nil_r.
      - exists []. symmetry. apply app_nil_r.
      - cbv zeta. destruct (windows _ !! _ ≫= win_fbsize_callback) as [[]|].
        + eexists. reflexivity.
        + exists []. symmetry. apply app_nil_r. }
    destruct Hd as [tr1 Hd]. cbn [deliver_all]. unfold exec, bind in *.
    destruct (deliver ev w) as [[] w1]. cbn [snd] in Hd.
    destruct (IH w1) as [tr2 H2]. exists (tr1 ++ tr2).
    rewrite H2, Hd. symmetry. apply app_assoc.
Qed.

(** The matrix a pass through the loop body uploads is the frame's. *)
Lemma renderFrame_uploads frame window loc w :
  Call.glUniformMatrix4fv loc (frameTransform (fi_time frame))
    ∈ trace (exec (renderFrame frame window loc) w).
Proof.
  unfold renderFrame, glfwPollEvents, exec, bind.
  destruct (processInput window w) as [[] w1]. run.
  match goal with |- context [deliver_all ?evs ?w2] =>
    destruct (deliver_all_trace evs w2) as [tr Htr]; unfold exec in Htr;
    destruct (deliver_all evs w2) as [[] w3]; cbn [snd] in Htr end.
  change (Call.glUniformMatrix4fv loc (frameTransform (fi_time frame)) ∈ trace w3).
  rewrite Htr. cbn [trace]. rewrite !elem_of_app. left. left. left. left. right. apply list_elem_of_here.
Qed.

Lemma renderLoop_while_unfold frames window loc :
  renderLoop_while frames window loc
  = (do closing <- glfwWindowShouldClose window;
     if closing then ret true
     else match frames with
          | [] => ret false
          | frame :: rest =>
              renderFrame frame window loc ;; renderLoop_while rest window loc
          end).
Proof. destruct frames; reflexivity. Qed.

Lemma renderLoop_while_exit frames window loc w :
  eval (renderLoop_while frames window loc) w = true ->
  should_close window (exec (renderLoop_while frames window loc) w) = true.
Proof.
  revert w. induction frames as [|frame rest IH]; intros w.
  - cbn [renderLoop_while]. unfold eval, exec. run.
    destruct (should_close window w) eqn:E; run; [intros _|discriminate].
    rewrite <- E. by apply should_close_same_windows.
  - cbn [renderLoop_while]. unfold eval, exec. run.
    destruct (should_close window w) eqn:E; run.
    + intros _. rewrite <- E. by apply should_close_same_windows.
    + destruct (renderFrame frame window loc _) as [[] w1]. apply IH.
Qed.

(** C10.  The close flag only ever goes up inside the program:
    [processInput] leaves it as it is or sets it; a pass through the loop
    body keeps a raised flag raised, for every window; a loop that finds
    the flag raised at its test stops there, whatever input is still to
    come, having done nothing but the test; and a loop that has stopped
    has the flag raised. *)
Theorem close_flag_monotone :
  (forall (window : N) (w : World),
     should_close window (exec (processInput window) w) = should_close window w \/
     should_close window (exec (processInput window) w) = true) /\
  (forall (p window : N) (frame : FrameInput) (loc : string) (w : World),
     should_close p w = true ->
     should_close p (exec (renderFrame frame window loc) w) = true) /\
  (forall (frames : list FrameInput) (window : N) (loc : string) (w : World),
     should_close window w = true ->
     eval (renderLoop_while frames window loc) w = true /\
     exec (renderLoop_while frames window loc) w
     = log_call (Call.glfwWindowShouldClose window) w) /\
  (forall (frames : list FrameInput) (window : N) (loc : string) (w : World),
     eval (renderLoop_while frames window loc) w = true ->
     should_close window (exec (renderLoop_while frames window loc) w) = true).
Proof.
  split; [|split; [|split]].
  - intros window w.
    destruct (should_close window w) eqn:E.
    + right. by apply processInput_keeps_flag.
    + destruct (should_close window (exec (processInput window) w)); auto.
  - intros p window frame loc w. apply renderFrame_keeps_flag.
  - intros frames window loc w H. rewrite renderLoop_while_unfold.
    unfold eval, exec. run. rewrite H. run. split; reflexivity.
  - intros frames window loc. apply renderLoop_while_exit.
Qed.

End LoopFacts.

(** Runs of C10 in [world_closing], where a close request has arrived. *)
Lemma close_flag_monotone_witness :
  should_close window_ready
    (exec (renderFrame {| fi_time := 0%R; fi_events := [] |} window_ready "transform")
          world_closing) = true /\
  eval (renderLoop_while (env_frames env_escape) window_ready "transform") world_closing
  = true /\
  exec (renderLoop_while (env_frames env_escape) window_ready "transform") world_closing
  = log_call (Call.glfwWindowShouldClose window_ready) world_closing /\
  should_close window_ready
    (exec (renderLoop_while (env_frames env_escape) window_ready "transform")
          world_ready) = true.
Proof.
  destruct close_flag_monotone as [_ [Hbody [Hstop Hexit]]].
  split; [apply Hbody; reflexivity|].
  destruct (Hstop (env_frames env_escape) window_ready "transform" world_closing)
    as [Hresult Hworld]; [reflexivity|].
  split; [exact Hresult|]. split; [exact Hworld|].
  apply Hexit. vm_compute. reflexivity.
Defined.

(* ===================================================================== *)
(** ** Object lifetimes over a whole run                                  *)
(* ===================================================================== *)

Section LifetimeFacts.

Lemma exec_bind {A B : Type} (m : GL A) (k : A -> GL B) (w : World) :
  exec (bind m k) w = exec (k (eval m w)) (exec m w).
Proof. unfold exec, eval, bind. by destruct (m w). Qed.

Lemma eval_bind {A B : Type} (m : GL A) (k : A -> GL B) (w : World) :
  eval (bind m k) w = eval (k (eval m w)) (exec m w).
Proof. unfold exec, eval, bind. by destruct (m w). Qed.

Lemma lifecycle_snoc (tr : list Call.t) (c : Call.t) :
  lifecycle (tr ++ [c]) = lifecycle tr ++ (if is_lifecycle c then [c] else []).
Proof.
  unfold lifecycle. rewrite filter_app. f_equal.
  destruct (is_lifecycle c) eqn:E.
  - rewrite filter_cons_True by (by rewrite E). reflexivity.
  - rewrite filter_cons_False by (rewrite E; intros []). reflexivity.
Qed.

(** Rewrites the lifecycle calls of an explicit trace into a list. *)
Ltac lifecycle_steps :=
  rewrite ?lifecycle_snoc; cbn [is_lifecycle]; rewrite ?app_nil_r, <- ?app_assoc;
  cbn [app].

Variable env : Env.

Lemma initlializeGLFW_lifecycle w :
  lifecycle (trace (exec (initlializeGLFW env) w)) = lifecycle (trace w).
Proof.
  open_world w. destruct env as [wok lok dec frs].
  unfold exec, initlializeGLFW, glfwCreateWindow, gladLoadGLLoader.
  cbn [env_window_ok env_loader_ok].
  destruct wok; run.
  - rewrite decide_False by apply fresh_name_nonzero.
    destruct lok; run; lifecycle_steps; reflexivity.
  - rewrite decide_True by reflexivity. run. lifecycle_steps. reflexivity.
Qed.

Lemma Shader_new_lifecycle vp fp w :
  lifecycle (trace (exec (Shader_new vp fp) w))
  = lifecycle (trace w) ++ [Call.Shader_new (eval (Shader_new vp fp) w)].
Proof. open_world w. unfold exec, eval. run. lifecycle_steps. reflexivity. Qed.

Lemma generateTexture_lifecycle path u alpha w :
  lifecycle (trace (exec (generateTexture env path u alpha) w))
  = lifecycle (trace w) ++ [Call.glGenTextures (eval (generateTexture env path u alpha) w)].
Proof.
  rewrite generateTexture_eval.
  open_world w. unfold exec, generateTexture. run.
  destruct alpha; run; destruct (env_decode env path); run;
    lifecycle_steps; reflexivity.
Qed.

Lemma main_geometry_lifecycle w :
  lifecycle (trace (exec main_geometry w))
  = lifecycle (trace w)
    ++ [Call.glGenVertexArrays (eval main_geometry w).1.1;
        Call.glGenBuffers (eval main_geometry w).1.2;
        Call.glGenBuffers (eval main_geometry w).2].
Proof.
  rewrite main_geometry_eval. open_world w. unfold exec, main_geometry. run.
  lifecycle_steps. reflexivity.
Qed.

Lemma processInput_lifecycle window w :
  lifecycle (trace (exec (processInput window) w)) = lifecycle (trace w).
Proof.
  unfold exec, processInput. run.
  destruct (decide (key_of window GLFW_KEY_ESCAPE w = GLFW_PRESS)); run;
    lifecycle_steps; reflexivity.
Qed.

Lemma deliver_all_lifecycle evs w :
  lifecycle (trace (exec (deliver_all evs) w)) = lifecycle (trace w).
Proof.
  revert w. induction evs as [|ev evs IH]; intros w; [reflexivity|].
  cbn [deliver_all]. rewrite exec_bind, IH.
  unfold exec, deliver. destruct ev as [key action| |width height];
    [reflexivity | reflexivity |].
  cbv zeta. destruct (windows _ !! _ ≫= win_fbsize_callback) as [[]|]; [|reflexivity].
  cbn [run_callback]. unfold framebuffer_size_callback. run.
  lifecycle_steps. reflexivity.
Qed.

Lemma renderFrame_lifecycle frame window loc w :
  lifecycle (trace (exec (renderFrame frame window loc) w)) = lifecycle (trace w).
Proof.
  unfold renderFrame, glfwPollEvents.
  rewrite exec_bind. rewrite <- (processInput_lifecycle window w).
  generalize (exec (processInput window) w). intros w1.
  rewrite !exec_bind, deliver_all_lifecycle.
  open_world w1. unfold exec, eval. run. lifecycle_steps. reflexivity.
Qed.

Lemma renderLoop_while_lifecycle frames window loc w :
  lifecycle (trace (exec (renderLoop_while frames window loc) w)) = lifecycle (trace w).
Proof.
  revert w. induction frames as [|frame rest IH]; intros w;
    rewrite renderLoop_while_unfold, exec_bind;
    change (eval (glfwWindowShouldClose window) w) with (should_close window w);
    assert (Ht : lifecycle (trace (exec (glfwWindowShouldClose window) w))
                 = lifecycle (trace w))
      by (open_world w; unfold exec; run; lifecycle_steps; reflexivity);
    destruct (should_close window w); try exact Ht.
  rewrite exec_bind, IH, renderFrame_lifecycle. exact Ht.
Qed.

Lemma renderLoop_lifecycle window shader VAO textures w :
  lifecycle (trace (exec (renderLoop env window shader VAO textures) w))
  = lifecycle (trace w).
Proof.
  unfold renderLoop. rewrite !exec_bind, renderLoop_while_lifecycle.
  open_world w. unfold exec, eval. run. lifecycle_steps. reflexivity.
Qed.

(** In every run of [main] that reaches [return 0], five objects are
    created before the loop, none is created or deleted by the loop, and
    afterwards only the vertex array and the first buffer are deleted. *)
Lemma main_lifecycle w :
  eval (main env) w = Exited 0 ->
  exists shader texture VAO VBO EBO : N,
    VBO ≠ EBO /\
    lifecycle (trace (exec (main env) w))
    = lifecycle (trace w)
      ++ [ Call.Shader_new shader; Call.glGenTextures texture;
           Call.glGenVertexArrays VAO; Call.glGenBuffers VBO; Call.glGenBuffers EBO;
           Call.glDeleteVertexArrays VAO; Call.glDeleteBuffers VBO ].
Proof.
  unfold main. rewrite eval_bind, exec_bind.
  pose proof (initlializeGLFW_lifecycle w) as H0.
  set (window := eval (initlializeGLFW env) w) in *.
  set (w0 := exec (initlializeGLFW env) w) in *.
  destruct (decide (window = nullptr)); [discriminate|].
  rewrite eval_bind, exec_bind.
  pose proof (Shader_new_lifecycle vertexShaderPath fragmentShaderPath w0) as H1.
  set (shader := eval (Shader_new vertexShaderPath fragmentShaderPath) w0) in *.
  set (w1 := exec (Shader_new vertexShaderPath fragmentShaderPath) w0) in *.
  rewrite eval_bind, exec_bind.
  pose proof (generateTexture_lifecycle "./notAbee.jpg" 0 false w1) as H2.
  set (texture := eval (generateTexture env "./notAbee.jpg" 0 false) w1) in *.
  set (w2 := exec (generateTexture env "./notAbee.jpg" 0 false) w1) in *.
  cbv zeta. rewrite eval_bind, exec_bind.
  pose proof (main_geometry_lifecycle w2) as H3.
  pose proof (main_geometry_eval w2) as Hnames.
  set (w3 := exec main_geometry w2) in *.
  destruct (eval main_geometry w2) as [[VAO VBO] EBO]. cbn [fst snd] in H3.
  rewrite eval_bind, exec_bind.
  pose proof (renderLoop_lifecycle window shader VAO [texture] w3) as H4.
  set (w4 := exec (renderLoop env window shader VAO [texture]) w3) in *.
  destruct (eval (renderLoop env window shader VAO [texture]) w3); [|discriminate].
  intros _. exists shader, texture, VAO, VBO, EBO. split.
  - inversion Hnames; subst. intros Heq. symmetry in Heq.
    by apply fresh_name_insert_ne in Heq.
  - generalize dependent w4. intros w4 H4.
    open_world w4. unfold exec. run. cbn [trace] in H4.
    lifecycle_steps. rewrite H4, H3, H2, H1, H0. rewrite <- !app_assoc. reflexivity.
Qed.

End LifetimeFacts.


(* ===================================================================== *)
(** ** Further properties: start-up and resize                            *)
(* ===================================================================== *)

Section StartupFacts.

Variable env : Env.

(** The GLFW state and the handle after a start in which the window is
    created, whatever the loader does. *)
Lemma initlializeGLFW_window_created w :
  env_window_ok env = true ->
  let p := fresh_name (windows (glfw w)) in
  eval (initlializeGLFW env) w = (if env_loader_ok env then p else nullptr) /\
  context_current (glfw (exec (initlializeGLFW env) w)) = p /\
  windows (glfw (exec (initlializeGLFW env) w))
  = <[p := set_fbsize_callback (Some framebuffer_size_callback_ptr)
             (new_window SCR_WIDTH SCR_HEIGHT "LearnOpenGL")]> (windows (glfw w)) /\
  glfw_initialized (glfw (exec (initlializeGLFW env) w)) = true.
Proof.
  intros Hok. open_world w. destruct env as [wok lok dec frs].
  cbn [env_window_ok] in Hok. subst wok.
  unfold eval, exec, initlializeGLFW, glfwCreateWindow, gladLoadGLLoader.
  cbn [env_window_ok env_loader_ok]. run.
  rewrite decide_False by apply fresh_name_nonzero.
  destruct lok; run; unfold on_window; cbn [windows];
    rewrite alter_insert_eq; repeat split.
Qed.

Lemma initlializeGLFW_live w :
  env_window_ok env = true ->
  live_window (fresh_name (windows (glfw w))) (exec (initlializeGLFW env) w) /\
  callback_of (fresh_name (windows (glfw w))) (exec (initlializeGLFW env) w)
  = Some framebuffer_size_callback_ptr.
Proof.
  intros Hok. destruct (initlializeGLFW_window_created w Hok) as (_ & Hc & Hw & _).
  unfold live_window, callback_of. rewrite Hc, Hw, lookup_insert_eq.
  split; [split; [reflexivity | eauto] | reflexivity].
Qed.

(** X3.  The two failures of [initlializeGLFW] leave different states
    behind.  If the window cannot be created, GLFW is terminated: no
    window, no current context.  If the loader fails, the function returns
    the null handle but does not terminate GLFW: the window it created is
    still open, still the current context, and its handle is lost to the
    caller.  Neither path touches the viewport or any OpenGL object. *)
Theorem initlializeGLFW_failure_modes (w : World) :
  let w' := exec (initlializeGLFW env) w in
  (env_window_ok env = false ->
   eval (initlializeGLFW env) w = nullptr /\
   glfw_initialized (glfw w') = false /\
   windows (glfw w') = ∅ /\ context_current (glfw w') = 0%N /\
   std_cerr w' = std_cerr w ++ ["Failed to create GLFW window"]) /\
  (env_window_ok env = true -> env_loader_ok env = false ->
   eval (initlializeGLFW env) w = nullptr /\
   glfw_initialized (glfw w') = true /\
   live_window (fresh_name (windows (glfw w))) w' /\
   gl_loaded w' = false /\
   std_cerr w' = std_cerr w ++ ["failed to initialize GLAD"]) /\
  viewport w' = viewport w /\ tex w' = tex w /\ geom w' = geom w /\ shd w' = shd w /\
  std_cout w' = std_cout w.
Proof.
  cbv zeta. split; [|split].
  - intros Hno. open_world w. destruct env as [wok lok dec frs].
    cbn [env_window_ok] in Hno. subst wok.
    unfold eval, exec, initlializeGLFW, glfwCreateWindow, gladLoadGLLoader.
    cbn [env_window_ok env_loader_ok]. run.
    rewrite decide_True by reflexivity. run. repeat split.
  - intros Hok Hno.
    destruct (initlializeGLFW_window_created w Hok) as (He & _ & _ & Hi).
    destruct (initlializeGLFW_live w Hok) as [Hl _].
    rewrite Hno in He. split; [exact He|]. split; [exact Hi|]. split; [exact Hl|].
    open_world w. destruct env as [wok lok dec frs].
    cbn [env_window_ok env_loader_ok] in Hok, Hno. subst wok lok.
    unfold exec, initlializeGLFW, glfwCreateWindow, gladLoadGLLoader.
    cbn [env_window_ok env_loader_ok]. run.
    rewrite decide_False by apply fresh_name_nonzero. run. split; reflexivity.
  - open_world w. destruct env as [wok lok dec frs].
    unfold exec, initlializeGLFW, glfwCreateWindow, gladLoadGLLoader.
    cbn [env_window_ok env_loader_ok].
    destruct wok; run.
    + rewrite decide_False by apply fresh_name_nonzero.
      destruct lok; run; repeat split.
    + rewrite decide_True by reflexivity. run. repeat split.
Qed.

End StartupFacts.

(** Runs of X3: a refused window and a failed loader. *)
Lemma initlializeGLFW_failure_modes_witness :
  (eval (initlializeGLFW env_no_window) initial_world = nullptr /\
   glfw_initialized (glfw (exec (initlializeGLFW env_no_window) initial_world)) = false /\
   windows (glfw (exec (initlializeGLFW env_no_window) initial_world)) = ∅ /\
   context_current (glfw (exec (initlializeGLFW env_no_window) initial_world)) = 0%N /\
   std_cerr (exec (initlializeGLFW env_no_window) initial_world)
   = [] ++ ["Failed to create GLFW window"]) /\
  (eval (initlializeGLFW env_no_loader) initial_world = nullptr /\
   glfw_initialized (glfw (exec (initlializeGLFW env_no_loader) initial_world)) = true /\
   live_window (fresh_name (windows (glfw initial_world)))
               (exec (initlializeGLFW env_no_loader) initial_world) /\
   gl_loaded (exec (initlializeGLFW env_no_loader) initial_world) = false /\
   std_cerr (exec (initlializeGLFW env_no_loader) initial_world)
   = [] ++ ["failed to initialize GLAD"]).
Proof.
  split.
  - apply (initlializeGLFW_failure_modes env_no_window initial_world). reflexivity.
  - apply (initlializeGLFW_failure_modes env_no_loader initial_world); reflexivity.
Defined.

(* ===================================================================== *)
(** ** Further properties: events                                         *)
(* ===================================================================== *)

Section EventFacts.

(** Changing a window in place keeps the set of windows and the current
    context. *)
Lemma on_window_live p q (f : Window -> Window) w :
  live_window p w -> live_window p (with_glfw (on_window q f) w).
Proof.
  intros [Hc Hw]. open_world w. unfold live_window, on_window in *.
  cbn [glfw with_glfw context_current windows] in *. split; [exact Hc|].
  rewrite lookup_alter. destruct (decide (q = p)) as [->|]; [|exact Hw].
  destruct Hw as [win ->]. eauto.
Qed.

Lemma on_window_callback p q (f : Window -> Window) w :
  (forall win, win_fbsize_callback (f win) = win_fbsize_callback win) ->
  callback_of p (with_glfw (on_window q f) w) = callback_of p w.
Proof.
  intros Hf. open_world w. unfold callback_of, on_window.
  cbn [glfw with_glfw windows]. rewrite lookup_alter.
  destruct (decide (q = p)) as [->|]; [|reflexivity].
  match goal with |- context [?ws !! p] => destruct (ws !! p) as [win|] end;
    cbn; [apply Hf | reflexivity].
Qed.

(** What one event never touches, and what it keeps. *)
Lemma deliver_frame p ev w :
  let w' := exec (deliver ev) w in
  tex w' = tex w /\ geom w' = geom w /\ shd w' = shd w /\
  streams w' = streams w /\
  flip_vertically_on_load w' = flip_vertically_on_load w /\
  (live_window p w -> live_window p w') /\
  callback_of p w' = callback_of p w.
Proof.
  assert (Hw : forall q (f : Window -> Window),
             (forall win, win_fbsize_callback (f win) = win_fbsize_callback win) ->
             let w1 := with_glfw (on_window q f) w in
             tex w1 = tex w /\ geom w1 = geom w /\ shd w1 = shd w /\
             streams w1 = streams w /\
             flip_vertically_on_load w1 = flip_vertically_on_load w /\
             (live_window p w -> live_window p w1) /\
             callback_of p w1 = callback_of p w).
  { intros q f Hf. cbv zeta.
    do 5 (split; [by destruct w|]).
    split; [apply on_window_live | by apply on_window_callback]. }
  cbv zeta. unfold exec, deliver. destruct ev as [key action| |width height].
  - apply Hw. reflexivity.
  - apply Hw. reflexivity.
  - cbv zeta.
    specialize (Hw (context_current (glfw w)) (set_size width height) (fun _ => eq_refl)).
    cbv zeta in Hw.
    set (w1 := with_glfw (on_window (context_current (glfw w)) (set_size width height)) w)
      in *.
    destruct (windows (glfw w1) !! context_current (glfw w) ≫= win_fbsize_callback)
      as [[]|]; [|exact Hw].
    destruct Hw as (Ht & Hg & Hs & Hst & Hf & Hl & Hc).
    cbn [run_callback]. unfold framebuffer_size_callback.
    rewrite <- Ht, <- Hg, <- Hs, <- Hst, <- Hf, <- Hc.
    do 5 (split; [by destruct w1|]).
    split; [|by destruct w1].
    intros H. apply Hl in H. by destruct w1.
Qed.

Lemma deliver_all_frame p evs w :
  let w' := exec (deliver_all evs) w in
  tex w' = tex w /\ geom w' = geom w /\ shd w' = shd w /\
  streams w' = streams w /\
  flip_vertically_on_load w' = flip_vertically_on_load w /\
  (live_window p w -> live_window p w') /\
  callback_of p w' = callback_of p w.
Proof.
  cbv zeta. revert w. induction evs as [|ev evs IH]; intros w.
  - do 5 (split; [reflexivity|]). split; [tauto | reflexivity].
  - cbn [deliver_all]. rewrite exec_bind.
    destruct (deliver_frame p ev w) as (Ht & Hg & Hs & Hst & Hf & Hl & Hc).
    destruct (IH (exec (deliver ev) w)) as (Ht' & Hg' & Hs' & Hst' & Hf' & Hl' & Hc').
    rewrite Ht', Hg', Hs', Hst', Hf', Hc'.
    do 5 (split; [assumption|]). split; [|assumption].
    intros H. apply Hl', Hl, H.
Qed.

(** A resize event reaches the callback of the current window. *)
Lemma deliver_resize p width height w :
  live_window p w -> callback_of p w = Some framebuffer_size_callback_ptr ->
  viewport (exec (deliver (EvFramebufferSize width height)) w) = (0, 0, width, height)%Z.
Proof.
  intros [Hc Hw] Hcb. unfold exec, deliver. cbv zeta. rewrite Hc.
  pose proof (on_window_callback p p (set_size width height) w (fun _ => eq_refl)) as H.
  unfold callback_of in H, Hcb. rewrite H, Hcb.
  cbn [run_callback]. unfold framebuffer_size_callback. by destruct w.
Qed.

(** Events other than a resize leave the viewport alone. *)
Lemma deliver_viewport_other ev w :
  (forall width height, ev <> EvFramebufferSize width height) ->
  viewport (exec (deliver ev) w) = viewport w.
Proof.
  intros H. unfold exec, deliver. destruct ev as [key action| |width height];
    try (by destruct w). by destruct (H width height).
Qed.

Lemma deliver_all_viewport_other evs w :
  (forall ev width height, ev ∈ evs -> ev <> EvFramebufferSize width height) ->
  viewport (exec (deliver_all evs) w) = viewport w.
Proof.
  revert w. induction evs as [|ev evs IH]; intros w H; [reflexivity|].
  cbn [deliver_all]. rewrite exec_bind, IH.
  - apply deliver_viewport_other. intros width height. apply H. apply list_elem_of_here.
  - intros ev' width height Hin. apply H. by apply list_elem_of_further.
Qed.

Variable env : Env.

(** A start in which the window is created and the loader works leaves
    the OpenGL entry points loaded. *)
Lemma initlializeGLFW_loaded w :
  env_window_ok env = true -> env_loader_ok env = true ->
  gl_loaded (exec (initlializeGLFW env) w) = true.
Proof.
  intros Hw Hl. open_world w. destruct env as [wok lok dec frs].
  cbn [env_window_ok env_loader_ok] in Hw, Hl. subst wok lok.
  unfold exec, initlializeGLFW, glfwCreateWindow, gladLoadGLLoader.
  cbn [env_window_ok env_loader_ok]. run.
  rewrite decide_False by apply fresh_name_nonzero. run. reflexivity.
Qed.

(** X4.  After a start that succeeds (the window is created and the
    loader works, so that [glViewport] is a loaded entry point when the
    callback calls it), the viewport follows the window: when
    [glfwPollEvents] hands over a batch of events, the viewport afterwards
    is (0, 0, width, height) of the last resize in the batch.  The sizes
    are framebuffer sizes as GLFW reports them, hence not negative. *)
Theorem resize_sets_viewport (w : World) (before after : list Event)
    (width height : Z) :
  env_window_ok env = true -> env_loader_ok env = true ->
  (0 <= width)%Z -> (0 <= height)%Z ->
  (forall ev a b, ev ∈ after -> ev <> EvFramebufferSize a b) ->
  gl_loaded (exec (initlializeGLFW env) w) = true /\
  viewport (exec (glfwPollEvents (before ++ EvFramebufferSize width height :: after))
                 (exec (initlializeGLFW env) w))
  = (0, 0, width, height)%Z.
Proof.
  intros Hok Hload _ _ Hafter.
  split; [by apply initlializeGLFW_loaded|].
  destruct (initlializeGLFW_live env w Hok) as [Hl Hc].
  set (p := fresh_name (windows (glfw w))) in *.
  set (w0 := exec (initlializeGLFW env) w) in *.
  unfold glfwPollEvents. rewrite exec_bind.
  set (w1 := exec (effect Call.glfwPollEvents (fun w => w)) w0).
  assert (Hl1 : live_window p w1) by (by destruct w0).
  assert (Hc1 : callback_of p w1 = Some framebuffer_size_callback_ptr)
    by (rewrite <- Hc; by destruct w0).
  clearbody w1. clear Hl Hc. revert w1 Hl1 Hc1.
  induction before as [|ev before IH]; intros w1 Hl1 Hc1.
  - cbn [app deliver_all]. rewrite exec_bind.
    rewrite deliver_all_viewport_other by exact Hafter.
    by apply (deliver_resize p).
  - cbn [app deliver_all]. rewrite exec_bind.
    destruct (deliver_frame p ev w1) as (_ & _ & _ & _ & _ & Hl & Hc).
    apply IH; [by apply Hl | by rewrite Hc].
Qed.

End EventFacts.

(** A run of X4: two resizes and a key press in one batch. *)
Lemma resize_sets_viewport_witness :
  gl_loaded (exec (initlializeGLFW env_escape) initial_world) = true /\
  viewport (exec (glfwPollEvents ([EvFramebufferSize 640 480]
                                  ++ EvFramebufferSize 1024 768 :: [EvKey 65 GLFW_PRESS]))
                 (exec (initlializeGLFW env_escape) initial_world))
  = (0, 0, 1024, 768)%Z.
Proof.
  apply (resize_sets_viewport env_escape initial_world);
    [reflexivity | reflexivity | lia | lia |].
  intros ev a b Hin Heq. subst ev. apply list_elem_of_singleton in Hin. discriminate Hin.
Defined.

(* ===================================================================== *)
(** ** Further properties: generateTexture                                *)
(* ===================================================================== *)

Section TextureFurther.

Variable env : Env.

Lemma generateTexture_rest path u alpha w :
  let w' := exec (generateTexture env path u alpha) w in
  glfw w' = glfw w /\ gl_loaded w' = gl_loaded w /\ viewport w' = viewport w /\
  geom w' = geom w /\ shd w' = shd w /\ std_cerr w' = std_cerr w.
Proof.
  cbv zeta. open_world w. unfold exec, generateTexture. run.
  destruct alpha; run; destruct (env_decode env path); run; repeat split.
Qed.

Lemma generateTexture_keeps_textures path u alpha w (name : N) (o : TexObj) :
  textures (tex w) !! name = Some o ->
  textures (tex (exec (generateTexture env path u alpha) w)) !! name = Some o.
Proof.
  intros Hname. rewrite generateTexture_tex. cbn [textures].
  rewrite lookup_insert_ne; [exact Hname|].
  intros Heq. rewrite <- Heq, fresh_name_unused in Hname. discriminate.
Qed.

(** X5.  Called with a texture unit that OpenGL accepts,
    [generateTexture] works on a texture of its own: every texture object
    that existed before the call is unchanged after it, the 2D bindings of
    the other texture units are unchanged, and so are the windows, the
    viewport, the vertex arrays and buffers and the shader programs.  What
    it does overwrite is the 2D binding of the unit it selects: whatever
    was bound there before, 0 is bound afterwards. *)
Theorem generateTexture_frame (path : string) (u : Z) (alpha : bool) (w : World) :
  valid_texture_unit u ->
  let w' := exec (generateTexture env path u alpha) w in
  (forall (name : N) (o : TexObj),
     textures (tex w) !! name = Some o -> textures (tex w') !! name = Some o) /\
  (forall u' : Z, u' <> u ->
     texture_binding_2d (tex w') !! u' = texture_binding_2d (tex w) !! u') /\
  texture_binding_2d (tex w') !! u = Some 0%N /\
  glfw w' = glfw w /\ viewport w' = viewport w /\ geom w' = geom w /\ shd w' = shd w.
Proof.
  intros _. cbv zeta.
  destruct (generateTexture_rest path u alpha w) as (Hg & _ & Hv & Hge & Hs & _).
  split; [intros name o; apply generateTexture_keeps_textures|].
  rewrite generateTexture_tex. cbn [textures texture_binding_2d].
  split; [|split].
  - intros u' Hu. apply lookup_insert_ne. congruence.
  - apply lookup_insert_eq.
  - repeat split; assumption.
Qed.

(** X6.  Two calls give two textures: the second name differs from the
    first, neither is 0, and the first texture comes through the second
    call with its parameters and image as the first call left them. *)
Theorem generateTexture_twice (path1 path2 : string) (u1 u2 : Z) (alpha1 alpha2 : bool)
    (w : World) :
  let first := generateTexture env path1 u1 alpha1 in
  let second := generateTexture env path2 u2 alpha2 in
  let t1 := eval first w in
  let w1 := exec first w in
  let t2 := eval second w1 in
  let w2 := exec second w1 in
  t1 <> t2 /\ t1 <> 0%N /\ t2 <> 0%N /\
  textures (tex w2) !! t1 = textures (tex w1) !! t1 /\
  is_Some (textures (tex w2) !! t1) /\ is_Some (textures (tex w2) !! t2).
Proof.
  cbv zeta.
  pose proof (generateTexture_object env path1 u1 alpha1 w) as H1.
  pose proof (generateTexture_object env path2 u2 alpha2
                (exec (generateTexture env path1 u1 alpha1) w)) as H2.
  set (w1 := exec (generateTexture env path1 u1 alpha1) w) in *.
  set (t1 := eval (generateTexture env path1 u1 alpha1) w) in *.
  set (t2 := eval (generateTexture env path2 u2 alpha2) w1) in *.
  assert (Hne : t1 <> t2).
  { intros Heq. unfold t2 in Heq. rewrite generateTexture_eval in Heq.
    rewrite Heq, fresh_name_unused in H1. discriminate. }
  split; [exact Hne|].
  split; [unfold t1; rewrite generateTexture_eval; apply fresh_name_nonzero|].
  split; [unfold t2; rewrite generateTexture_eval; apply fresh_name_nonzero|].
  assert (Hkeep : textures (tex (exec (generateTexture env path2 u2 alpha2) w1)) !! t1
                  = textures (tex w1) !! t1).
  { rewrite H1.
    apply generateTexture_keeps_textures. exact H1. }
  split; [exact Hkeep|]. split; [rewrite Hkeep, H1; eauto | rewrite H2; eauto].
Qed.

(** X7.  The vertical flip that an alpha call switches on in stb_image
    is never switched off again: no call lowers the flag, and an image
    loaded without the alpha flag after any call with it is uploaded
    upside down as well. *)
Theorem generateTexture_flip_sticks (path1 path2 : string) (u1 u2 : Z) (w : World)
    (img : Image) :
  env_decode env path2 = Some img ->
  let w1 := exec (generateTexture env path1 u1 true) w in
  let second := generateTexture env path2 u2 false in
  (forall path u alpha w0,
     flip_vertically_on_load w0 = true ->
     flip_vertically_on_load (exec (generateTexture env path u alpha) w0) = true) /\
  flip_vertically_on_load w1 = true /\
  (textures (tex (exec second w1)) !! eval second w1 ≫= tex_image)
  = Some {| ti_internalformat := GL_RGB;
            ti_width := img_width img; ti_height := img_height img;
            ti_format := GL_RGB; ti_type := GL_UNSIGNED_BYTE;
            ti_rows := reverse (img_rows img) |}.
Proof.
  intros Hdec. cbv zeta.
  assert (Hflip : flip_vertically_on_load (exec (generateTexture env path1 u1 true) w)
                  = true) by apply generateTexture_flip.
  split; [|split; [exact Hflip|]].
  - intros path u alpha w0 H0. rewrite generateTexture_flip, H0. apply orb_true_r.
  - rewrite generateTexture_object. unfold decoded. rewrite Hdec, Hflip. reflexivity.
Qed.

End TextureFurther.

(** A run of X5: the sample image loaded on texture unit 1. *)
Lemma generateTexture_frame_witness :
  let w := initial_world in
  let w' := exec (generateTexture env_escape "./notAbee.jpg" 1 false) w in
  (forall (name : N) (o : TexObj),
     textures (tex w) !! name = Some o -> textures (tex w') !! name = Some o) /\
  (forall u' : Z, u' <> 1%Z ->
     texture_binding_2d (tex w') !! u' = texture_binding_2d (tex w) !! u') /\
  texture_binding_2d (tex w') !! 1%Z = Some 0%N /\
  glfw w' = glfw w /\ viewport w' = viewport w /\ geom w' = geom w /\ shd w' = shd w.
Proof.
  apply (generateTexture_frame env_escape "./notAbee.jpg" 1 false initial_world).
  unfold valid_texture_unit, guaranteed_texture_units. lia.
Defined.

(** A run of X7: an alpha load, then a plain load of the sample image. *)
Lemma generateTexture_flip_sticks_witness :
  let w1 := exec (generateTexture env_escape "./face.png" 1 true) initial_world in
  let second := generateTexture env_escape "./notAbee.jpg" 0 false in
  (forall path u alpha w0,
     flip_vertically_on_load w0 = true ->
     flip_vertically_on_load (exec (generateTexture env_escape path u alpha) w0) = true) /\
  flip_vertically_on_load w1 = true /\
  (textures (tex (exec second w1)) !! eval second w1 ≫= tex_image)
  = Some {| ti_internalformat := GL_RGB;
            ti_width := img_width sample_image; ti_height := img_height sample_image;
            ti_format := GL_RGB; ti_type := GL_UNSIGNED_BYTE;
            ti_rows := reverse (img_rows sample_image) |}.
Proof.
  apply (generateTexture_flip_sticks env_escape "./face.png" "./notAbee.jpg" 1 0
           initial_world sample_image).
  reflexivity.
Defined.

(* ===================================================================== *)
(** ** Further properties: the render loop                                *)
(* ===================================================================== *)

Section LoopFurther.

Lemma processInput_exec window w :
  exec (processInput window) w
  = if decide (key_of window GLFW_KEY_ESCAPE w = GLFW_PRESS)
    then with_glfw (on_window window (set_should_close true))
           (log_call (Call.glfwSetWindowShouldClose window true)
              (log_call (Call.glfwGetKey window GLFW_KEY_ESCAPE) w))
    else log_call (Call.glfwGetKey window GLFW_KEY_ESCAPE) w.
Proof.
  unfold processInput.
  cbv beta iota zeta delta [bind glfwGetKey query exec snd fst].
  destruct (decide (key_of window GLFW_KEY_ESCAPE w = GLFW_PRESS)); reflexivity.
Qed.

Lemma processInput_frame p window w :
  let w' := exec (processInput window) w in
  tex w' = tex w /\ geom w' = geom w /\ shd w' = shd w /\
  streams w' = streams w /\
  flip_vertically_on_load w' = flip_vertically_on_load w /\
  (live_window p w -> live_window p w') /\
  callback_of p w' = callback_of p w.
Proof.
  cbv zeta. rewrite processInput_exec.
  destruct (decide (key_of window GLFW_KEY_ESCAPE w = GLFW_PRESS)).
  - do 5 (split; [by destruct w|]). split.
    + intros H. apply on_window_live. by destruct w.
    + rewrite on_window_callback by reflexivity. by destruct w.
  - do 5 (split; [by destruct w|]). split; [intros H|]; by destruct w.
Qed.

(** What a pass through the loop body never touches, and what it keeps. *)
Lemma renderFrame_frame p frame window loc w :
  let w' := exec (renderFrame frame window loc) w in
  tex w' = tex w /\ geom w' = geom w /\
  current_program (shd w') = current_program (shd w) /\
  streams w' = streams w /\
  flip_vertically_on_load w' = flip_vertically_on_load w /\
  (live_window p w -> live_window p w') /\
  callback_of p w' = callback_of p w.
Proof.
  cbv zeta. unfold renderFrame, glfwPollEvents.
  rewrite exec_bind.
  destruct (processInput_frame p window w) as (Ht & Hg & Hs & Hst & Hf & Hl & Hc).
  rewrite <- Ht, <- Hg, <- Hs, <- Hst, <- Hf, <- Hc.
  generalize dependent (exec (processInput window) w). intros w1 _ _ _ _ _ Hl _.
  rewrite !exec_bind.
  match goal with |- context [exec (deliver_all ?evs) ?w2] =>
    destruct (deliver_all_frame p evs w2) as (Ht' & Hg' & Hs' & Hst' & Hf' & Hl' & Hc');
    set (w3 := w2) in * end.
  rewrite Ht', Hg', Hs', Hst', Hf', Hc'.
  do 5 (split; [by destruct w1|]). split; [|by destruct w1].
  intros H. apply Hl'. apply Hl in H. by destruct w1.
Qed.



Lemma renderLoop_while_stops frames window loc w :
  should_close window w = true ->
  eval (renderLoop_while frames window loc) w = true.
Proof.
  intros H. rewrite renderLoop_while_unfold. unfold eval. run. rewrite H. reflexivity.
Qed.



Lemma count_calls_snoc (p : Call.t -> bool) (tr : list Call.t) (c : Call.t) :
  count_calls p (tr ++ [c]) = (count_calls p tr + (if p c then 1 else 0))%nat.
Proof.
  unfold count_calls. rewrite filter_app, length_app. f_equal.
  destruct (p c) eqn:E.
  - rewrite filter_cons_True by (by rewrite E). reflexivity.
  - rewrite filter_cons_False by (rewrite E; intros []). reflexivity.
Qed.

(** Event delivery calls nothing but [glViewport]. *)
Lemma deliver_all_count (p : Call.t -> bool) evs w :
  (forall x y width height, p (Call.glViewport x y width height) = false) ->
  count_calls p (trace (exec (deliver_all evs) w)) = count_calls p (trace w).
Proof.
  intros Hp. revert w. induction evs as [|ev evs IH]; intros w; [reflexivity|].
  cbn [deliver_all]. rewrite exec_bind, IH.
  unfold exec, deliver. destruct ev as [key action| |width height];
    [by destruct w | by destruct w |].
  cbv zeta. destruct (windows _ !! _ ≫= win_fbsize_callback) as [[]|]; [|by destruct w].
  cbn [run_callback]. unfold framebuffer_size_callback.
  destruct w. cbn [glViewport effect snd trace with_viewport with_glfw log_call].
  rewrite count_calls_snoc, Hp. apply Nat.add_0_r.
Qed.

Lemma processInput_count (p : Call.t -> bool) window w :
  (forall q key, p (Call.glfwGetKey q key) = false) ->
  (forall q v, p (Call.glfwSetWindowShouldClose q v) = false) ->
  count_calls p (trace (exec (processInput window) w)) = count_calls p (trace w).
Proof.
  intros Hk Hs. rewrite processInput_exec.
  destruct (decide (key_of window GLFW_KEY_ESCAPE w = GLFW_PRESS)); destruct w;
    cbn [trace with_glfw log_call]; rewrite !count_calls_snoc, ?Hk, ?Hs; lia.
Qed.

(** One pass: one draw, one swap, one poll, no loop test. *)
Lemma renderFrame_count frame window loc w :
  let tr := trace w in
  let tr' := trace (exec (renderFrame frame window loc) w) in
  count_calls is_draw tr' = (count_calls is_draw tr + 1)%nat /\
  count_calls is_swap tr' = (count_calls is_swap tr + 1)%nat /\
  count_calls is_poll tr' = (count_calls is_poll tr + 1)%nat /\
  count_calls is_loop_test tr' = count_calls is_loop_test tr.
Proof.
  cbv zeta. unfold renderFrame, glfwPollEvents. rewrite exec_bind.
  rewrite <- (processInput_count is_draw window w) by reflexivity.
  rewrite <- (processInput_count is_swap window w) by reflexivity.
  rewrite <- (processInput_count is_poll window w) by reflexivity.
  rewrite <- (processInput_count is_loop_test window w) by reflexivity.
  generalize (exec (processInput window) w). intros w1.
  rewrite !exec_bind, !deliver_all_count by reflexivity.
  destruct w1. unfold exec, eval. run.
  rewrite !count_calls_snoc. cbn [is_draw is_swap is_poll is_loop_test].
  repeat split; lia.
Qed.

Lemma renderLoop_while_step frame rest window loc w :
  should_close window w = false ->
  exec (renderLoop_while (frame :: rest) window loc) w
  = exec (renderLoop_while rest window loc)
      (exec (renderFrame frame window loc)
         (log_call (Call.glfwWindowShouldClose window) w)) /\
  eval (renderLoop_while (frame :: rest) window loc) w
  = eval (renderLoop_while rest window loc)
      (exec (renderFrame frame window loc)
         (log_call (Call.glfwWindowShouldClose window) w)).
Proof.
  intros H. rewrite renderLoop_while_unfold, exec_bind, eval_bind.
  change (eval (glfwWindowShouldClose window) w) with (should_close window w).
  rewrite H, exec_bind, eval_bind. split; reflexivity.
Qed.

Lemma renderLoop_while_done frames window loc w :
  should_close window w = true ->
  exec (renderLoop_while frames window loc) w
  = log_call (Call.glfwWindowShouldClose window) w.
Proof.
  intros H. rewrite renderLoop_while_unfold, exec_bind.
  change (eval (glfwWindowShouldClose window) w) with (should_close window w).
  rewrite H. reflexivity.
Qed.

(** X9.  The loop draws, presents and polls exactly once per pass and
    tests the close flag once more than it draws; it makes at most one
    pass per frame of input, and all of them if it is still running when
    the input ends. *)
Theorem renderLoop_while_counts (frames : list FrameInput) (window : N)
    (loc : string) (w : World) :
  let tr := trace w in
  let tr' := trace (exec (renderLoop_while frames window loc) w) in
  exists passes : nat,
    (passes <= length frames)%nat /\
    count_calls is_draw tr' = (count_calls is_draw tr + passes)%nat /\
    count_calls is_swap tr' = (count_calls is_swap tr + passes)%nat /\
    count_calls is_poll tr' = (count_calls is_poll tr + passes)%nat /\
    count_calls is_loop_test tr' = (count_calls is_loop_test tr + passes + 1)%nat /\
    (eval (renderLoop_while frames window loc) w = false -> passes = length frames).
Proof.
  cbv zeta. revert w. induction frames as [|frame rest IH]; intros w.
  - exists 0%nat. rewrite renderLoop_while_unfold, exec_bind.
    change (eval (glfwWindowShouldClose window) w) with (should_close window w).
    split; [reflexivity|].
    destruct (should_close window w); destruct w; unfold exec; run;
      rewrite !count_calls_snoc; cbn [is_draw is_swap is_poll is_loop_test];
      repeat split; lia.
  - destruct (should_close window w) eqn:E.
    + exists 0%nat. rewrite renderLoop_while_done by exact E.
      rewrite renderLoop_while_stops by exact E.
      split; [cbn [length]; lia|].
      destruct w; cbn [trace log_call]. rewrite !count_calls_snoc.
      cbn [is_draw is_swap is_poll is_loop_test]. repeat split; try lia; try discriminate.
    + destruct (renderLoop_while_step frame rest window loc w E) as [-> ->].
      set (w0 := log_call (Call.glfwWindowShouldClose window) w).
      destruct (renderFrame_count frame window loc w0) as (Hd & Hs & Hp & Ht).
      destruct (IH (exec (renderFrame frame window loc) w0))
        as (n & Hn & Hd' & Hs' & Hp' & Ht' & Hf').
      exists (S n). rewrite Hd', Hs', Hp', Ht', Hd, Hs, Hp, Ht.
      assert (H0 : count_calls is_draw (trace w0) = count_calls is_draw (trace w) /\
                   count_calls is_swap (trace w0) = count_calls is_swap (trace w) /\
                   count_calls is_poll (trace w0) = count_calls is_poll (trace w) /\
                   count_calls is_loop_test (trace w0)
                   = (count_calls is_loop_test (trace w) + 1)%nat).
      { unfold w0. destruct w; cbn [trace log_call]. rewrite !count_calls_snoc.
        cbn [is_draw is_swap is_poll is_loop_test]. repeat split; lia. }
      destruct H0 as (-> & -> & -> & ->). cbn [length].
      repeat split; try lia. intros Hfalse. apply Hf' in Hfalse. lia.
Qed.



End LoopFurther.



(* ===================================================================== *)
(** ** Further properties: the scene during the loop                      *)
(* ===================================================================== *)

Section SceneFacts.

Lemma same_scene_refl w : same_scene w w.
Proof. unfold same_scene. repeat split. Qed.

Lemma same_scene_trans w1 w2 w3 :
  same_scene w1 w2 -> same_scene w2 w3 -> same_scene w1 w3.
Proof.
  intros (Ht & Hg & Hc & Hu & Hs & Hf) (Ht' & Hg' & Hc' & Hu' & Hs' & Hf').
  unfold same_scene. rewrite Ht', Hg', Hc', Hs', Hf'.
  do 3 (split; [assumption|]). split; [|split; assumption].
  intros q name. rewrite Hu'. apply Hu.
Qed.

Lemma same_scene_log c w : same_scene w (log_call c w).
Proof. destruct w. unfold same_scene. repeat split. Qed.

(** Uploading a matrix leaves the integer uniforms alone. *)
Lemma uniform_int_mat4 q name loc m w w' :
  shd w' = shd_uniform_mat4 loc m (shd w) ->
  uniform_int q name w' = uniform_int q name w.
Proof.
  intros H. unfold uniform_int. rewrite H. unfold shd_uniform_mat4. cbn [programs].
  rewrite lookup_alter. destruct (decide (current_program (shd w) = q)) as [->|];
    [|reflexivity].
  destruct (programs (shd w) !! q) as [p|]; reflexivity.
Qed.

Lemma renderFrame_shd frame window loc w :
  shd (exec (renderFrame frame window loc) w)
  = shd_uniform_mat4 loc (frameTransform (fi_time frame)) (shd w).
Proof.
  unfold renderFrame, glfwPollEvents. rewrite exec_bind.
  destruct (processInput_frame 0%N window w) as (_ & _ & Hs & _).
  rewrite <- Hs. generalize (exec (processInput window) w). intros w1.
  rewrite !exec_bind.
  match goal with |- context [exec (deliver_all ?evs) ?w2] =>
    destruct (deliver_all_frame 0%N evs w2) as (_ & _ & Hs' & _) end.
  rewrite Hs'. by destruct w1.
Qed.

Lemma renderFrame_same_scene frame window loc w :
  same_scene w (exec (renderFrame frame window loc) w).
Proof.
  destruct (renderFrame_frame 0%N frame window loc w) as (Ht & Hg & Hc & Hs & Hf & _).
  unfold same_scene. do 3 (split; [assumption|]). split; [|split; assumption].
  intros q name. apply (uniform_int_mat4 _ _ loc (frameTransform (fi_time frame))).
  apply renderFrame_shd.
Qed.

Lemma renderLoop_while_same_scene frames window loc w :
  same_scene w (exec (renderLoop_while frames window loc) w).
Proof.
  revert w. induction frames as [|frame rest IH]; intros w.
  - rewrite renderLoop_while_unfold, exec_bind.
    change (eval (glfwWindowShouldClose window) w) with (should_close window w).
    destruct (should_close window w); apply same_scene_log.
  - destruct (should_close window w) eqn:E.
    + rewrite renderLoop_while_done by exact E. apply same_scene_log.
    + destruct (renderLoop_while_step frame rest window loc w E) as [-> _].
      eapply same_scene_trans; [apply same_scene_log|].
      eapply same_scene_trans; [apply renderFrame_same_scene | apply IH].
Qed.

Variable env : Env.

(** The world in which [renderLoop] enters its [while]. *)
Lemma renderLoop_split window shader VAO textures w :
  exists wp : World,
    exec (renderLoop env window shader VAO textures) w
    = exec (renderLoop_while (env_frames env) window "transform") wp /\
    eval (renderLoop env window shader VAO textures) w
    = eval (renderLoop_while (env_frames env) window "transform") wp /\
    glfw wp = glfw w /\ streams wp = streams w /\
    flip_vertically_on_load wp = flip_vertically_on_load w /\
    tex wp = tex_bind GL_TEXTURE_2D (default 0%N (textures !! 0%nat))
               (tex_active 0 (tex w)) /\
    geom wp = geom_bind_vao VAO (geom w) /\
    shd wp = shd_set_int shader "texture1" 0 (shd_use shader (shd w)).
Proof.
  eexists. unfold renderLoop. rewrite !exec_bind, !eval_bind.
  split; [reflexivity|]. split; [reflexivity|].
  destruct w. repeat split.
Qed.

(** X11.  [renderLoop] draws with what it binds first: if the shader
    program, the texture and the vertex array exist, then when the
    function comes back, after any number of passes, the program in use is
    still the shader, texture unit 0 is active with the texture bound, the
    vertex array is bound, the sampler uniform "texture1" is 0, and no
    texture, vertex array or buffer object has changed. *)
Theorem renderLoop_bindings (window shader VAO texture : N) (others : list N)
    (w : World) :
  is_Some (programs (shd w) !! shader) ->
  is_Some (textures (tex w) !! texture) ->
  is_Some (vaos (geom w) !! VAO) ->
  let w' := exec (renderLoop env window shader VAO (texture :: others)) w in
  current_program (shd w') = shader /\
  uniform_int shader "texture1" w' = Some 0%Z /\
  active_texture (tex w') = 0%Z /\
  bound_texture_2d (tex w') = texture /\
  vertex_array_binding (geom w') = VAO /\
  textures (tex w') = textures (tex w) /\
  vaos (geom w') = vaos (geom w) /\
  buffers (geom w') = buffers (geom w).
Proof.
  intros [prog Hprog] Htex Hvao. cbv zeta.
  destruct (renderLoop_split window shader VAO (texture :: others) w)
    as (wp & -> & _ & _ & _ & _ & Ht & Hg & Hs).
  destruct (renderLoop_while_same_scene (env_frames env) window "transform" wp)
    as (Ht' & Hg' & Hc' & Hu' & _).
  rewrite Ht', Hg', Hc', Hu'. unfold uniform_int. rewrite Ht, Hg, Hs.
  cbn [lookup list_lookup default].
  unfold tex_bind, geom_bind_vao.
  rewrite decide_True by (split; [reflexivity | right; exact Htex]).
  rewrite decide_True by (right; exact Hvao).
  unfold bound_texture_2d, shd_set_int, shd_use, tex_active.
  cbn [current_program programs active_texture texture_binding_2d textures
       vertex_array_binding vaos buffers].
  rewrite lookup_alter_eq, Hprog, lookup_insert_eq.
  cbn. rewrite lookup_insert_eq. repeat split.
Qed.

(** X16.  After a pass through the loop body the "transform" uniform of
    the program in use holds the matrix of that pass's time stamp, and the
    program in use is the one it was. *)
Theorem renderFrame_uniform (frame : FrameInput) (window : N) (loc : string)
    (w : World) :
  is_Some (programs (shd w) !! current_program (shd w)) ->
  let w' := exec (renderFrame frame window loc) w in
  current_program (shd w') = current_program (shd w) /\
  (programs (shd w') !! current_program (shd w') ≫= fun p => prog_mat4s p !! loc)
  = Some (frameTransform (fi_time frame)).
Proof.
  intros [prog Hprog]. cbv zeta. rewrite renderFrame_shd.
  unfold shd_uniform_mat4. cbn [current_program programs].
  split; [reflexivity|].
  rewrite lookup_alter_eq, Hprog. cbn. apply lookup_insert_eq.
Qed.

End SceneFacts.

(** A run of X16: one frame at time 1 with the shader of [main] in use. *)
Lemma renderFrame_uniform_witness :
  let w := exec (do shader <- Shader_new vertexShaderPath fragmentShaderPath;
                 Shader_use shader) world_ready in
  let frame := {| fi_time := 1%R; fi_events := [] |} in
  let w' := exec (renderFrame frame window_ready "transform") w in
  current_program (shd w') = current_program (shd w) /\
  (programs (shd w') !! current_program (shd w') ≫= fun p => prog_mat4s p !! "transform")
  = Some (frameTransform 1%R).
Proof.
  apply (renderFrame_uniform {| fi_time := 1%R; fi_events := [] |} window_ready
           "transform").
  vm_compute. eauto.
Defined.

(** A run of X11: the objects of [main] up to the loop, then the loop. *)
Lemma renderLoop_bindings_witness :
  let w := exec (Shader_new vertexShaderPath fragmentShaderPath ;;
                 generateTexture env_escape "./notAbee.jpg" 0 false ;;
                 main_geometry) world_ready in
  let w' := exec (renderLoop env_escape window_ready 1 1 [1%N]) w in
  current_program (shd w') = 1%N /\
  uniform_int 1 "texture1" w' = Some 0%Z /\
  active_texture (tex w') = 0%Z /\
  bound_texture_2d (tex w') = 1%N /\
  vertex_array_binding (geom w') = 1%N /\
  textures (tex w') = textures (tex w) /\
  vaos (geom w') = vaos (geom w) /\
  buffers (geom w') = buffers (geom w).
Proof.
  apply (renderLoop_bindings env_escape window_ready 1 1 1 []);
    vm_compute; eauto.
Defined.

(* ===================================================================== *)
(** ** Further properties: the geometry set-up and whole runs             *)
(* ===================================================================== *)

Section MainFacts.

(** X12.  The geometry set-up disturbs no object that existed before it
    and leaves nothing bound: the three names it hands out are new,
    non-zero and the two buffers distinct, every earlier vertex array and
    buffer is as it was, and the vertex-array and array-buffer bindings
    are both 0 afterwards, whatever was bound before.  The element buffer
    of the new vertex array holds the six indices, 24 bytes, which is what
    every draw call of the loop asks for. *)
Theorem main_geometry_frame (w : World) :
  let '(VAO, VBO, EBO) := eval main_geometry w in
  let w' := exec main_geometry w in
  VAO <> 0%N /\ VBO <> 0%N /\ EBO <> 0%N /\ VBO <> EBO /\
  vaos (geom w) !! VAO = None /\
  buffers (geom w) !! VBO = None /\ buffers (geom w) !! EBO = None /\
  (forall (n : N) (v : VaoObj),
     vaos (geom w) !! n = Some v -> vaos (geom w') !! n = Some v) /\
  (forall (n : N) (b : BufObj),
     buffers (geom w) !! n = Some b -> buffers (geom w') !! n = Some b) /\
  vertex_array_binding (geom w') = 0%N /\ array_buffer_binding (geom w') = 0%N /\
  (vaos (geom w') !! VAO ≫= fun v => buffers (geom w') !! vao_element_buffer v)
  = Some {| buf_size := 6 * sizeof_int; buf_data := IntData indices |} /\
  Z.of_nat (length indices) = 6%Z.
Proof.
  rewrite main_geometry_eval. cbv zeta. rewrite main_geometry_geom.
  cbn [vaos buffers vertex_array_binding array_buffer_binding].
  set (VAO := fresh_name (vaos (geom w))).
  set (VBO := fresh_name (buffers (geom w))).
  set (EBO := fresh_name (<[VBO := new_buffer]> (buffers (geom w)))).
  assert (Hne : EBO ≠ VBO) by apply fresh_name_insert_ne.
  assert (Hvao : vaos (geom w) !! VAO = None) by apply fresh_name_unused.
  assert (Hvbo : buffers (geom w) !! VBO = None) by apply fresh_name_unused.
  assert (Hebo : buffers (geom w) !! EBO = None).
  { pose proof (fresh_name_unused (<[VBO := new_buffer]> (buffers (geom w)))) as H.
    fold EBO in H. by rewrite lookup_insert_ne in H. }
  do 3 (split; [apply fresh_name_nonzero|]).
  split; [congruence|].
  do 3 (split; [assumption|]).
  split; [|split; [|split; [reflexivity|split; [reflexivity|split; [|reflexivity]]]]].
  - intros n v Hn. rewrite lookup_insert_ne; [exact Hn | congruence].
  - intros n b Hn. rewrite !lookup_insert_ne; [exact Hn | congruence | congruence].
  - rewrite lookup_insert_eq. cbn. apply lookup_insert_eq.
Qed.

Variable env : Env.





(** X15.  In every run of [main] that reaches [return 0], the calls that
    create or delete a GPU object are, in order: the shader program, the
    texture, the vertex array and two distinct buffers created, then the
    vertex array and the first buffer deleted.  Nothing else is created or
    deleted, in particular nothing by the loop. *)
Theorem main_creates_and_deletes (w : World) :
  eval (main env) w = Exited 0 ->
  exists shader texture VAO VBO EBO : N,
    VBO <> EBO /\
    lifecycle (trace (exec (main env) w))
    = lifecycle (trace w)
      ++ [ Call.Shader_new shader; Call.glGenTextures texture;
           Call.glGenVertexArrays VAO; Call.glGenBuffers VBO; Call.glGenBuffers EBO;
           Call.glDeleteVertexArrays VAO; Call.glDeleteBuffers VBO ].
Proof. apply main_lifecycle. Qed.

End MainFacts.

(** A run of X15: the escape run of [env_escape]. *)
Lemma main_creates_and_deletes_witness :
  exists shader texture VAO VBO EBO : N,
    VBO <> EBO /\
    lifecycle (trace (exec (main env_escape) initial_world))
    = lifecycle (trace initial_world)
      ++ [ Call.Shader_new shader; Call.glGenTextures texture;
           Call.glGenVertexArrays VAO; Call.glGenBuffers VBO; Call.glGenBuffers EBO;
           Call.glDeleteVertexArrays VAO; Call.glDeleteBuffers VBO ].
Proof.
  apply (main_creates_and_deletes env_escape initial_world).
  vm_compute. reflexivity.
Defined.

